(** * The training harness of [ext/training.py], embedded in Rocq

    The module drives epochs and steps over an externally supplied model and
    statistics tracker, prints progress lines, writes checkpoints and runs a
    tuning pass.  The embedding follows the Python text method by method:

    - Python [int] is [Z]; Python [float] is an exact rational [Q] (binary
      rounding of IEEE doubles is not represented, every arithmetic step is
      exact);
    - an exception is a value of [exn]; a method is a function from the
      world to an outcome and the world it leaves behind, so that whatever
      was mutated before a [raise] stays mutated;
    - the world holds the model object, the tracker object, the checkpoint
      files, the instance attributes that the methods assign, and the log of
      everything observable (prints, calls made on the collaborators, file
      reads and writes) in program order;
    - the two classes [TrainerBase] and [PyTorchTrainer] are two tables of
      overridable methods; the inherited methods take the table as argument
      (late binding through [self]). *)

From Stdlib Require Import ZArith QArith Qround Qabs String Ascii DecimalString List Lia.
From stdpp Require Import gmap strings.
Import ListNotations.
Local Open Scope Z_scope.

(** ** Python numbers and [%]-formatting *)

Module Py.

Inductive exn : Type :=
| NotImplementedError (msg : string)
| ZeroDivisionError
| FileNotFoundError (path : string)
| AttributeError (attr : string).

Inductive outcome (A : Type) : Type :=
| Ok (a : A)
| Raise (e : exn).
Arguments Ok {A} a.
Arguments Raise {A} e.

(** [a % b] on ints: the sign follows the divisor, as [Z.modulo] does;
    a zero divisor raises. *)
Definition mod_ (a b : Z) : outcome Z :=
  if b =? 0 then Raise ZeroDivisionError else Ok (a mod b).

(** [a / b], true division. *)
Definition truediv (a b : Q) : outcome Q :=
  if Qeq_bool b 0 then Raise ZeroDivisionError else Ok (a / b)%Q.

Definition ltb (a b : Q) : bool :=
  match (a ?= b)%Q with Lt => true | _ => false end.

Definition gtb (a b : Q) : bool := ltb b a.

(** [np.floor], [np.ceil] followed by [int(...)]. *)
Definition floor (x : Q) : Z := Qfloor x.
Definition ceil (x : Q) : Z := Qceiling x.

(** [np.average] of a scalar is the scalar. *)
Definition average (x : Q) : Q := x.

(** Decimal digits of an int, as [str] and ['%s'] print it. *)
Definition str (n : Z) : string := NilZero.string_of_int (Z.to_int n).

Definition tab : string := String (ascii_of_nat 9) EmptyString.

Fixpoint replicate_string (n : nat) (c : string) : string :=
  match n with
  | O => EmptyString
  | S k => c +:+ replicate_string k c
  end.

(** Right-justify in a field of [width] characters. *)
Definition rjust (width : nat) (fill : string) (s : string) : string :=
  replicate_string (width - String.length s) fill +:+ s.

(** Nearest integer of a non-negative rational, ties to the even one. *)
Definition round_half_even (x : Q) : Z :=
  let f := Qfloor x in
  match (x - inject_Z f ?= 1 # 2)%Q with
  | Lt => f
  | Gt => f + 1
  | Eq => if Z.even f then f else f + 1
  end.

(** ['%<width>.<prec>f' % x]: sign, integer part, point, [prec] digits,
    padded with blanks on the left up to [width]. *)
Definition format_f (width prec : nat) (x : Q) : string :=
  let scale := 10 ^ Z.of_nat prec in
  let n := round_half_even (Qabs x * inject_Z scale) in
  let sign := if ltb x 0 then "-" else "" in
  let frac :=
    match prec with
    | O => ""
    | S _ => "." +:+ rjust prec "0" (str (n mod scale))
    end in
  rjust width " " (sign +:+ str (n / scale) +:+ frac).

End Py.

Import Py.

(** ** Utility functions *)

Definition pretty_time (secs : Q) : string :=
  if ltb secs 60 then
    format_f 4 2 secs +:+ " secs"
  else if ltb secs 3600 then
    format_f 4 2 (secs / 60) +:+ " mins"
  else if ltb secs 86400 then
    format_f 4 2 (secs / 60 / 60) +:+ " hrs"
  else
    format_f 3 2 (secs / 60 / 60 / 24) +:+ " days".

(** The text [_print_dividing_lines] prints. *)
Definition dividing_lines : string :=
  "------" +:+ tab +:+ tab +:+ "------" +:+ tab +:+ tab +:+ "------"
  +:+ tab +:+ tab +:+ "------" +:+ tab +:+ tab +:+ "------".

(** The header [_print_epoch_start] prints between two dividing lines. *)
Definition epoch_start_line (epoch : Z) : string :=
  "Epoch " +:+ str epoch +:+ tab +:+ tab +:+ "loss" +:+ tab +:+ "(avg.)"
  +:+ tab +:+ tab +:+ "acc" +:+ tab +:+ "(avg.)" +:+ tab +:+ "t(avg.)"
  +:+ tab +:+ tab +:+ "remaining".

(** [str.startswith] and [str.endswith]. *)
Fixpoint starts_with (prefix s : string) : bool :=
  match prefix with
  | EmptyString => true
  | String a prefix' =>
      match s with
      | EmptyString => false
      | String b s' => Ascii.eqb a b && starts_with prefix' s'
      end
  end.

Definition ends_with (suffix s : string) : bool :=
  starts_with (String.rev suffix) (String.rev s).

(** [os.path.join] with two components (POSIX): an absolute second
    component wins, otherwise the components are joined with exactly one
    separator. *)
Definition path_join (a b : string) : string :=
  if starts_with "/" b then b
  else if (a =? "")%string || ends_with "/" a then a +:+ b
  else a +:+ "/" +:+ b.

(** ** The collaborators: model, tracker, data sources *)

(** What the harness calls on a model.  [model_forward] returns the
    [(loss, accuracy)] components of the triple; the first component is
    never used by the harness. *)
Class Model (Batch Tensor Params M : Type) := {
  model_name : M -> string;
  model_train : M -> M;
  model_eval : M -> M;
  model_cuda : M -> M;
  model_zero_grad : M -> M;
  model_forward : Batch -> M -> M * (Tensor * Q);
  model_optimize : Tensor -> M -> M;
  model_state_dict : M -> Params;
  model_load_state_dict : Params -> M -> M;
  (** [loss.cpu().data.numpy()[0]] *)
  tensor_scalar : Tensor -> Q
}.

(** What the harness calls on the statistics tracker ([histories.History]). *)
Class History (H : Type) := {
  global_step : H -> Z;
  global_epoch : H -> Z;
  (** returns [(global_step, avg_time, avg_loss, avg_acc)] *)
  end_step : Q -> Q -> Q -> H -> H * (Z * Q * Q * Q);
  (** returns [(avg_time, avg_loss, change_loss, avg_acc, change_acc, is_best)] *)
  end_epoch : Q -> H -> H * (Q * Q * Q * Q * Q * bool);
  (** returns [(avg_acc, change_acc)] *)
  end_tuning : Q -> H -> H * (Q * Q)
}.

(** [tune_loader] is one data set or a Python list of data sets. *)
Inductive loaders (Batch : Type) : Type :=
| OneLoader (l : list Batch)
| LoaderList (ls : list (list Batch)).
Arguments OneLoader {Batch} l.
Arguments LoaderList {Batch} ls.

Inductive model_call (Batch Tensor Params : Type) : Type :=
| CTrain
| CEval
| CCuda
| CZeroGrad
| CForward (b : Batch)
| COptimize (loss : Tensor)
| CStateDict
| CLoadStateDict (p : Params).
Arguments CTrain {Batch Tensor Params}.
Arguments CEval {Batch Tensor Params}.
Arguments CCuda {Batch Tensor Params}.
Arguments CZeroGrad {Batch Tensor Params}.
Arguments CForward {Batch Tensor Params} b.
Arguments COptimize {Batch Tensor Params} loss.
Arguments CStateDict {Batch Tensor Params}.
Arguments CLoadStateDict {Batch Tensor Params} p.

Inductive history_call : Type :=
| HEndStep (time_taken loss acc : Q)
| HEndEpoch (time_taken : Q)
| HEndTuning (tuning_acc : Q)
| HSave.

(** Everything observable, in program order. *)
Inductive event (Batch Tensor Params : Type) : Type :=
| EPrint (line : string)
| EModel (c : model_call Batch Tensor Params)
| EHistory (c : history_call)
| ETorchSave (path : string) (p : Params)
| ETorchLoad (path : string).
Arguments EPrint {Batch Tensor Params} line.
Arguments EModel {Batch Tensor Params} c.
Arguments EHistory {Batch Tensor Params} c.
Arguments ETorchSave {Batch Tensor Params} path p.
Arguments ETorchLoad {Batch Tensor Params} path.

(** The trainer object's constructor arguments and [batches_per_epoch]. *)
Record trainer (Batch : Type) : Type := {
  train_loader : list Batch;
  tune_loader : loaders Batch;
  batches_per_epoch : Z;
  ckpt_dir : string
}.
Arguments train_loader {Batch} t.
Arguments tune_loader {Batch} t.
Arguments batches_per_epoch {Batch} t.
Arguments ckpt_dir {Batch} t.

(** The mutable world: the two collaborator objects, the checkpoint files,
    the tracker state last persisted by [history.save()], the attributes
    assigned by the timing methods, the number of clock readings taken so
    far, and the log. *)
Record world (Batch Tensor Params M H : Type) : Type := {
  model : M;
  history : H;
  files : gmap string Params;
  saved_history : option H;
  epoch_start : option Q;
  epoch_end : option Q;
  step_start : option Q;
  step_end : option Q;
  ticks : nat;
  log : list (event Batch Tensor Params)
}.
Arguments model {Batch Tensor Params M H} w.
Arguments history {Batch Tensor Params M H} w.
Arguments files {Batch Tensor Params M H} w.
Arguments saved_history {Batch Tensor Params M H} w.
Arguments epoch_start {Batch Tensor Params M H} w.
Arguments epoch_end {Batch Tensor Params M H} w.
Arguments step_start {Batch Tensor Params M H} w.
Arguments step_end {Batch Tensor Params M H} w.
Arguments ticks {Batch Tensor Params M H} w.
Arguments log {Batch Tensor Params M H} w.

(** ** The harness *)

Section Harness.

Context {Batch Tensor Params M H : Type}.
Context {model_ops : Model Batch Tensor Params M}.
Context {history_ops : History H}.

(** The readings [time.time()] returns, in the order they are taken. *)
Variable clock : nat -> Q.

Local Abbreviation World := (world Batch Tensor Params M H).
Local Abbreviation Event := (event Batch Tensor Params).

(** The lines printed, oldest first. *)
Definition printed (evs : list Event) : list string :=
  flat_map (fun e => match e with EPrint line => [line] | _ => [] end) evs.

(** The calls made on the model, oldest first. *)
Definition model_calls (evs : list Event) : list (model_call Batch Tensor Params) :=
  flat_map (fun e => match e with EModel c => [c] | _ => [] end) evs.

(** *** Methods as world transformers *)

Definition py (A : Type) : Type := World -> outcome A * World.

Definition ret {A : Type} (a : A) : py A := fun w => (Ok a, w).

Definition raise {A : Type} (e : exn) : py A := fun w => (Raise e, w).

Definition bind {A B : Type} (m : py A) (k : A -> py B) : py B :=
  fun w =>
    match m w with
    | (Ok a, w') => k a w'
    | (Raise e, w') => (Raise e, w')
    end.

Definition lift {A : Type} (o : outcome A) : py A := fun w => (o, w).

Notation "'let*' x := c1 'in' c2" := (bind c1 (fun x => c2))
  (at level 10, x pattern, c1 at level 100, c2 at level 200).
Notation "c1 ;; c2" := (bind c1 (fun _ => c2))
  (at level 100, right associativity).

(** [for x in xs: body(x)] *)
Fixpoint for_each {A : Type} (xs : list A) (body : A -> py unit) : py unit :=
  match xs with
  | [] => ret tt
  | x :: rest => body x ;; for_each rest body
  end.

(** *** Primitive effects *)

Definition emit (e : Event) (w : World) : World :=
  {| model := model w; history := history w; files := files w;
     saved_history := saved_history w;
     epoch_start := epoch_start w; epoch_end := epoch_end w;
     step_start := step_start w; step_end := step_end w;
     ticks := ticks w; log := log w ++ [e] |}.

Definition set_model (m : M) (w : World) : World :=
  {| model := m; history := history w; files := files w;
     saved_history := saved_history w;
     epoch_start := epoch_start w; epoch_end := epoch_end w;
     step_start := step_start w; step_end := step_end w;
     ticks := ticks w; log := log w |}.

Definition set_history (h : H) (w : World) : World :=
  {| model := model w; history := h; files := files w;
     saved_history := saved_history w;
     epoch_start := epoch_start w; epoch_end := epoch_end w;
     step_start := step_start w; step_end := step_end w;
     ticks := ticks w; log := log w |}.

Definition set_files (fs : gmap string Params) (w : World) : World :=
  {| model := model w; history := history w; files := fs;
     saved_history := saved_history w;
     epoch_start := epoch_start w; epoch_end := epoch_end w;
     step_start := step_start w; step_end := step_end w;
     ticks := ticks w; log := log w |}.

Definition set_saved_history (h : H) (w : World) : World :=
  {| model := model w; history := history w; files := files w;
     saved_history := Some h;
     epoch_start := epoch_start w; epoch_end := epoch_end w;
     step_start := step_start w; step_end := step_end w;
     ticks := ticks w; log := log w |}.

Definition set_epoch_start (t : Q) (w : World) : World :=
  {| model := model w; history := history w; files := files w;
     saved_history := saved_history w;
     epoch_start := Some t; epoch_end := epoch_end w;
     step_start := step_start w; step_end := step_end w;
     ticks := ticks w; log := log w |}.

Definition set_epoch_end (t : Q) (w : World) : World :=
  {| model := model w; history := history w; files := files w;
     saved_history := saved_history w;
     epoch_start := epoch_start w; epoch_end := Some t;
     step_start := step_start w; step_end := step_end w;
     ticks := ticks w; log := log w |}.

Definition set_step_start (t : Q) (w : World) : World :=
  {| model := model w; history := history w; files := files w;
     saved_history := saved_history w;
     epoch_start := epoch_start w; epoch_end := epoch_end w;
     step_start := Some t; step_end := step_end w;
     ticks := ticks w; log := log w |}.

Definition set_step_end (t : Q) (w : World) : World :=
  {| model := model w; history := history w; files := files w;
     saved_history := saved_history w;
     epoch_start := epoch_start w; epoch_end := epoch_end w;
     step_start := step_start w; step_end := Some t;
     ticks := ticks w; log := log w |}.

Definition tick (w : World) : World :=
  {| model := model w; history := history w; files := files w;
     saved_history := saved_history w;
     epoch_start := epoch_start w; epoch_end := epoch_end w;
     step_start := step_start w; step_end := step_end w;
     ticks := S (ticks w); log := log w |}.

Definition print (line : string) : py unit :=
  fun w => (Ok tt, emit (EPrint line) w).

Definition time_time : py Q :=
  fun w => (Ok (clock (ticks w)), tick w).

(** Reading an attribute that no method has assigned yet. *)
Definition getattr (field : World -> option Q) (attr : string) : py Q :=
  fun w =>
    match field w with
    | Some t => (Ok t, w)
    | None => (Raise (AttributeError attr), w)
    end.

(** A call of a model method that returns nothing. *)
Definition call_model (c : model_call Batch Tensor Params) (f : M -> M)
  : py unit :=
  fun w => (Ok tt, emit (EModel c) (set_model (f (model w)) w)).

Definition call_forward (batch : Batch) : py (Tensor * Q) :=
  fun w =>
    let (m, r) := model_forward batch (model w) in
    (Ok r, emit (EModel (CForward batch)) (set_model m w)).

Definition call_state_dict : py Params :=
  fun w => (Ok (model_state_dict (model w)), emit (EModel CStateDict) w).

Definition read_model_name : py string :=
  fun w => (Ok (model_name (model w)), w).

Definition read_global_step : py Z :=
  fun w => (Ok (global_step (history w)), w).

Definition read_global_epoch : py Z :=
  fun w => (Ok (global_epoch (history w)), w).

Definition history_end_step (time_taken loss acc : Q) : py (Z * Q * Q * Q) :=
  fun w =>
    let (h, r) := end_step time_taken loss acc (history w) in
    (Ok r, emit (EHistory (HEndStep time_taken loss acc)) (set_history h w)).

Definition history_end_epoch (time_taken : Q)
  : py (Q * Q * Q * Q * Q * bool) :=
  fun w =>
    let (h, r) := end_epoch time_taken (history w) in
    (Ok r, emit (EHistory (HEndEpoch time_taken)) (set_history h w)).

Definition history_end_tuning (tuning_acc : Q) : py (Q * Q) :=
  fun w =>
    let (h, r) := end_tuning tuning_acc (history w) in
    (Ok r, emit (EHistory (HEndTuning tuning_acc)) (set_history h w)).

Definition history_save : py unit :=
  fun w => (Ok tt, emit (EHistory HSave) (set_saved_history (history w) w)).

(** [torch.save(obj, path)] replaces the file's content. *)
Definition torch_save (p : Params) (path : string) : py unit :=
  fun w => (Ok tt, emit (ETorchSave path p) (set_files (<[path := p]> (files w)) w)).

(** [torch.load(path)] *)
Definition torch_load (path : string) : py Params :=
  fun w =>
    match files w !! path with
    | Some p => (Ok p, emit (ETorchLoad path) w)
    | None => (Raise (FileNotFoundError path), emit (ETorchLoad path) w)
    end.

(** *** Utility functions that print *)

Definition _print_dividing_lines : py unit :=
  print dividing_lines.

Definition _print_epoch_start (epoch : Z) : py unit :=
  _print_dividing_lines ;;
  print (epoch_start_line epoch) ;;
  _print_dividing_lines.

(** *** The overridable methods

    [_checkpoint], [_load_last], [step] and [_stopping_condition_met] are
    looked up on the object's class at each call. *)

Record methods : Type := {
  _checkpoint : trainer Batch -> bool -> py unit;
  _load_last : trainer Batch -> py unit;
  step : trainer Batch -> Batch -> py (Q * Q);
  _stopping_condition_met : trainer Batch -> py bool
}.

(** *** class TrainerBase *)

Definition TrainerBase__init__ (cls : methods)
    (train_loader : list Batch) (tune_loader : loaders Batch)
    (ckpt_dir : string) : py (trainer Batch) :=
  let self :=
    {| train_loader := train_loader;
       tune_loader := tune_loader;
       batches_per_epoch := Z.of_nat (length train_loader);
       ckpt_dir := ckpt_dir |} in
  let* global_step := read_global_step in
  if 1 <? global_step then
    print "Loading last checkpoint..." ;;
    _load_last cls self ;;
    ret self
  else
    ret self.

Definition TrainerBase_checkpoint (self : trainer Batch) (is_best : bool)
  : py unit :=
  raise (NotImplementedError "Deriving classes must implement.").

Definition ckpt_path (self : trainer Batch) (is_best : bool) : py string :=
  let* name := read_model_name in
  ret (path_join (ckpt_dir self)
         (name +:+ "_" +:+ (if is_best then "best" else "latest"))).

Definition TrainerBase_load_last (self : trainer Batch) : py unit :=
  raise (NotImplementedError "Deriving classes must implement.").

Definition progress_percent (self : trainer Batch) : py Z :=
  let* global_step := read_global_step in
  let* r := lift (mod_ global_step (batches_per_epoch self)) in
  let* q := lift (truediv (inject_Z r) (inject_Z (batches_per_epoch self))) in
  let percent := (q * 100)%Q in
  let rounded := ceil (percent / 10) * 10 in
  ret rounded.

Definition epoch_report_line (avg_time change_loss change_acc : Q) : string :=
  tab +:+ tab +:+ tab
  +:+ (if gtb change_loss 0 then "+" else "")
  +:+ format_f 10 5 change_loss
  +:+ tab +:+ tab
  +:+ (if gtb change_acc 0 then "+" else "")
  +:+ format_f 6 4 change_acc +:+ "%"
  +:+ tab
  +:+ pretty_time (average avg_time)
  +:+ tab.

Definition _report_epoch (avg_time change_loss change_acc : Q) : py unit :=
  _print_dividing_lines ;;
  print (epoch_report_line avg_time change_loss change_acc).

Definition _end_epoch (cls : methods) (self : trainer Batch) : py unit :=
  let* t := time_time in
  (fun w => (Ok tt, set_epoch_end t w)) ;;
  let* t0 := getattr epoch_start "_epoch_start" in
  let time_taken := (t - t0)%Q in
  let* (avg_time, avg_loss, change_loss, avg_acc, change_acc, is_best) :=
    history_end_epoch time_taken in
  _report_epoch avg_time avg_loss change_loss ;;
  _checkpoint cls self is_best ;;
  history_save.

Definition report_every (self : trainer Batch) : Z :=
  floor (inject_Z (batches_per_epoch self) / 10).

Definition steps_remaining (self : trainer Batch) : py Z :=
  let* global_step := read_global_step in
  let* r := lift (mod_ global_step (batches_per_epoch self)) in
  ret (batches_per_epoch self - r).

Definition step_report_line (percent : Z)
    (loss avg_loss acc avg_acc avg_time : Q) (remaining : Z) : string :=
  str percent +:+ "%:" +:+ tab +:+ tab
  +:+ format_f 8 5 loss +:+ tab
  +:+ format_f 8 5 avg_loss +:+ tab
  +:+ format_f 6 4 (acc * 100) +:+ "%" +:+ tab
  +:+ format_f 6 4 (avg_acc * 100) +:+ "%" +:+ tab
  +:+ pretty_time avg_time +:+ tab
  +:+ pretty_time (avg_time * inject_Z remaining).

Definition _report_step (self : trainer Batch) (global_step : Z)
    (loss avg_loss acc avg_acc avg_time : Q) : py unit :=
  let* r := lift (mod_ global_step (report_every self)) in
  if r =? 0 then
    let* percent := progress_percent self in
    let* remaining := steps_remaining self in
    print (step_report_line percent loss avg_loss acc avg_acc avg_time
             remaining)
  else
    ret tt.

Definition _end_step (self : trainer Batch) (loss acc : Q) : py unit :=
  let* t := time_time in
  (fun w => (Ok tt, set_step_end t w)) ;;
  let* t0 := getattr step_start "step_start" in
  let time_taken := (t - t0)%Q in
  let* (global_step, avg_time, avg_loss, avg_acc) :=
    history_end_step time_taken loss acc in
  _report_step self global_step loss avg_loss acc avg_acc avg_time.

Definition _start_epoch (self : trainer Batch) : py unit :=
  let* epoch := read_global_epoch in
  _print_epoch_start epoch ;;
  call_model CTrain model_train ;;
  let* t := time_time in
  fun w => (Ok tt, set_epoch_start t w).

Definition _start_step (self : trainer Batch) : py unit :=
  let* t := time_time in
  fun w => (Ok tt, set_step_start t w).

Definition TrainerBase_step (self : trainer Batch) (batch : Batch)
  : py (Q * Q) :=
  raise (NotImplementedError "Deriving classes must implement.").

Definition TrainerBase_stopping_condition_met (self : trainer Batch)
  : py bool :=
  ret false.

Definition tuning_line (avg_acc change_acc : Q) : string :=
  "Average tuning accuracy: " +:+ format_f 5 3 (avg_acc * 100) +:+ "% ("
  +:+ (if gtb change_acc 0 then "+" else "")
  +:+ format_f 5 3 (change_acc * 100) +:+ "%)".

(** The loop of [_tune]: [cum_acc += acc] over the batches. *)
Fixpoint tune_batches (batches : list Batch) (cum_acc : Q) : py Q :=
  match batches with
  | [] => ret cum_acc
  | batch :: rest =>
      let* (_, acc) := call_forward batch in
      tune_batches rest (cum_acc + acc)%Q
  end.

Definition _tune (tune_loader : list Batch) : py unit :=
  let* cum_acc := tune_batches tune_loader 0%Q in
  let* tuning_acc :=
    lift (truediv cum_acc (inject_Z (Z.of_nat (length tune_loader)))) in
  let* (avg_acc, change_acc) := history_end_tuning tuning_acc in
  print (tuning_line avg_acc change_acc).

Definition _tuning (self : trainer Batch) : py unit :=
  call_model CEval model_eval ;;
  match tune_loader self with
  | LoaderList ls => for_each ls _tune
  | OneLoader l => _tune l
  end ;;
  call_model CTrain model_train.

(** The [for] loop of [train] over the training batches. *)
Definition train_steps (cls : methods) (self : trainer Batch)
    (batches : list Batch) : py unit :=
  for_each batches
    (fun batch =>
       _start_step self ;;
       let* (loss, acc) := step cls self batch in
       _end_step self loss acc).

(** One iteration of the [while] loop of [train]. *)
Definition train_epoch (cls : methods) (self : trainer Batch) : py unit :=
  _start_epoch self ;;
  train_steps cls self (train_loader self) ;;
  _tuning self ;;
  _end_epoch cls self.

(** [train], cut off after [fuel] iterations of its [while] loop (with the
    default stopping condition the loop never ends by itself). *)
Fixpoint train (fuel : nat) (cls : methods) (self : trainer Batch) : py unit :=
  match fuel with
  | O => ret tt
  | S fuel' =>
      let* stop := _stopping_condition_met cls self in
      if stop then ret tt
      else train_epoch cls self ;; train fuel' cls self
  end.

Definition TrainerBase : methods :=
  {| _checkpoint := TrainerBase_checkpoint;
     _load_last := TrainerBase_load_last;
     step := TrainerBase_step;
     _stopping_condition_met := TrainerBase_stopping_condition_met |}.

(** *** class PyTorchTrainer(TrainerBase) *)

Definition PyTorchTrainer_checkpoint (self : trainer Batch) (is_best : bool)
  : py unit :=
  let* file_path := ckpt_path self false in
  let* state := call_state_dict in
  torch_save state file_path ;;
  if is_best then
    let* file_path := ckpt_path self true in
    let* state := call_state_dict in
    torch_save state file_path
  else
    ret tt.

Definition PyTorchTrainer_load_last (self : trainer Batch) : py unit :=
  let* file_path := ckpt_path self false in
  let* state := torch_load file_path in
  call_model (CLoadStateDict state) (model_load_state_dict state).

Definition PyTorchTrainer_step (self : trainer Batch) (batch : Batch)
  : py (Q * Q) :=
  call_model CZeroGrad model_zero_grad ;;
  let* (loss, acc) := call_forward batch in
  call_model (COptimize loss) (model_optimize loss) ;;
  ret (tensor_scalar loss, acc).

Definition PyTorchTrainer : methods :=
  {| _checkpoint := PyTorchTrainer_checkpoint;
     _load_last := PyTorchTrainer_load_last;
     step := PyTorchTrainer_step;
     _stopping_condition_met := TrainerBase_stopping_condition_met |}.

Definition PyTorchTrainer__init__
    (train_loader : list Batch) (tune_loader : loaders Batch)
    (ckpt_dir : string) : py (trainer Batch) :=
  let* self :=
    TrainerBase__init__ PyTorchTrainer train_loader tune_loader ckpt_dir in
  call_model CCuda model_cuda ;;
  ret self.

End Harness.

(** ** Descriptions used in the statements *)

Section Descriptions.

Context {Batch Tensor Params M H : Type}.
Context {model_ops : Model Batch Tensor Params M}.
Context {history_ops : History H}.

Local Abbreviation World := (world Batch Tensor Params M H).
Local Abbreviation Event := (event Batch Tensor Params).

(** The world [w] after the model became [m], the tracker became [h] and
    the events [evs] were logged; files, attributes and clock as in [w]. *)
Definition with_state (m : M) (h : H) (evs : list Event) (w : World) : World :=
  {| model := m; history := h; files := files w;
     saved_history := saved_history w;
     epoch_start := epoch_start w; epoch_end := epoch_end w;
     step_start := step_start w; step_end := step_end w;
     ticks := ticks w; log := log w ++ evs |}.

(** [tune_loader] seen as a list of data sources. *)
Definition sources_of (l : loaders Batch) : list (list Batch) :=
  match l with
  | OneLoader src => [src]
  | LoaderList srcs => srcs
  end.

(** Forward passes over the batches of one source, in order: the model
    afterwards and the accuracy of each batch. *)
Fixpoint forward_all (batches : list Batch) (m : M) : M * list Q :=
  match batches with
  | [] => (m, [])
  | batch :: rest =>
      let (m1, r) := model_forward batch m in
      let (m2, accs) := forward_all rest m1 in
      (m2, snd r :: accs)
  end.

(** One source of a tuning pass: forward every batch, sum the accuracies
    (first to last, starting from zero), divide by the batch count, hand the
    quotient to [end_tuning], print one line. *)
Definition tune_source (batches : list Batch) (s : M * H * list Event)
  : M * H * list Event :=
  let '(m, h, evs) := s in
  let (m', accs) := forward_all batches m in
  let tuning_acc :=
    (fold_left Qplus accs 0 / inject_Z (Z.of_nat (length batches)))%Q in
  let (h', r) := end_tuning tuning_acc h in
  (m', h',
   evs ++ map (fun batch => EModel (CForward batch)) batches
       ++ [EHistory (HEndTuning tuning_acc);
           EPrint (tuning_line (fst r) (snd r))]).

(** A whole tuning pass: evaluation mode, every source in turn, training
    mode. *)
Definition tuning_pass (srcs : list (list Batch)) (m : M) (h : H)
  : M * H * list Event :=
  let '(m', h', evs) :=
    fold_left (fun s src => tune_source src s) srcs
              (model_eval m, h, [EModel CEval]) in
  (model_train m', h', evs ++ [EModel CTrain]).

(** How many of the [n] consecutive step numbers from [first] on are
    multiples of [every]. *)
Fixpoint count_reports (every first : Z) (n : nat) : nat :=
  match n with
  | O => O
  | S k =>
      ((if (first mod every =? 0)%Z then 1 else 0)
       + count_reports every (first + 1) k)%nat
  end.

(** A tracker numbers the steps consecutively: [end_step] returns the
    number [next] announced, and announces the following one. *)
Definition numbers_steps (next : H -> Z) : Prop :=
  forall (time_taken loss acc : Q) (h : H),
    fst (fst (fst (snd (end_step time_taken loss acc h)))) = next h
    /\ next (fst (end_step time_taken loss acc h)) = next h + 1.

End Descriptions.

(** ** The progress formula as the specification words it

    [ceil(100 * (globalStep mod batchesPerEpoch) / batchesPerEpoch / 10) * 10] *)
Definition progress_percent_spec (global_step batches_per_epoch : Z) : Z :=
  Qceiling (100 * inject_Z (global_step mod batches_per_epoch)
            / inject_Z batches_per_epoch / 10) * 10.

(** ** A small concrete instance

    Used to run the harness on explicit inputs. *)

Module Toy.

(** A model whose parameters are one integer; each [optimize] call adds one
    to it.  A batch is a natural number, a loss tensor a rational. *)
Record net : Type := {
  net_name : string;
  net_training : bool;
  net_on_gpu : bool;
  net_weights : Z
}.

Definition net_forward (batch : nat) (m : net) : net * (Q * Q) :=
  (m, (inject_Z (Z.of_nat batch) / 4, 1 # 2)%Q).

#[global] Instance net_ops : Model nat Q Z net := {|
  model_name := net_name;
  model_train := fun m =>
    {| net_name := net_name m; net_training := true;
       net_on_gpu := net_on_gpu m; net_weights := net_weights m |};
  model_eval := fun m =>
    {| net_name := net_name m; net_training := false;
       net_on_gpu := net_on_gpu m; net_weights := net_weights m |};
  model_cuda := fun m =>
    {| net_name := net_name m; net_training := net_training m;
       net_on_gpu := true; net_weights := net_weights m |};
  model_zero_grad := fun m => m;
  model_forward := net_forward;
  model_optimize := fun _ m =>
    {| net_name := net_name m; net_training := net_training m;
       net_on_gpu := net_on_gpu m; net_weights := net_weights m + 1 |};
  model_state_dict := net_weights;
  model_load_state_dict := fun p m =>
    {| net_name := net_name m; net_training := net_training m;
       net_on_gpu := net_on_gpu m; net_weights := p |};
  tensor_scalar := fun t => t
|}.

(** Modelled from the spec: [histories.History], the statistics tracker, is
    not among the sources.  The spec gives its interface, a step counter
    that grows by one per step, running averages that are arithmetic means,
    and [is_best] as "tuning accuracy improved".  This is the naive
    accumulator with that behaviour. *)
Record tracker : Type := {
  tr_global_step : Z;
  tr_global_epoch : Z;
  tr_step_times : list Q;
  tr_losses : list Q;
  tr_accs : list Q;
  tr_epoch_times : list Q;
  tr_prev_loss : Q;
  tr_prev_acc : Q;
  tr_tuning : Q;
  tr_tuning_change : Q
}.

Definition mean (xs : list Q) : Q :=
  (fold_right Qplus 0 xs / inject_Z (Z.of_nat (length xs)))%Q.

Definition tracker_end_step (time_taken loss acc : Q) (h : tracker)
  : tracker * (Z * Q * Q * Q) :=
  let times := time_taken :: tr_step_times h in
  let losses := loss :: tr_losses h in
  let accs := acc :: tr_accs h in
  ({| tr_global_step := tr_global_step h + 1;
      tr_global_epoch := tr_global_epoch h;
      tr_step_times := times; tr_losses := losses; tr_accs := accs;
      tr_epoch_times := tr_epoch_times h;
      tr_prev_loss := tr_prev_loss h; tr_prev_acc := tr_prev_acc h;
      tr_tuning := tr_tuning h; tr_tuning_change := tr_tuning_change h |},
   (tr_global_step h + 1, mean times, mean losses, mean accs)).

Definition tracker_end_epoch (time_taken : Q) (h : tracker)
  : tracker * (Q * Q * Q * Q * Q * bool) :=
  let times := time_taken :: tr_epoch_times h in
  let avg_loss := mean (tr_losses h) in
  let avg_acc := mean (tr_accs h) in
  ({| tr_global_step := tr_global_step h;
      tr_global_epoch := tr_global_epoch h + 1;
      tr_step_times := []; tr_losses := []; tr_accs := [];
      tr_epoch_times := times;
      tr_prev_loss := avg_loss; tr_prev_acc := avg_acc;
      tr_tuning := tr_tuning h; tr_tuning_change := tr_tuning_change h |},
   (mean times, avg_loss, (avg_loss - tr_prev_loss h)%Q,
    avg_acc, (avg_acc - tr_prev_acc h)%Q, gtb (tr_tuning_change h) 0)).

Definition tracker_end_tuning (tuning_acc : Q) (h : tracker)
  : tracker * (Q * Q) :=
  let change := (tuning_acc - tr_tuning h)%Q in
  ({| tr_global_step := tr_global_step h;
      tr_global_epoch := tr_global_epoch h;
      tr_step_times := tr_step_times h; tr_losses := tr_losses h;
      tr_accs := tr_accs h;
      tr_epoch_times := tr_epoch_times h;
      tr_prev_loss := tr_prev_loss h; tr_prev_acc := tr_prev_acc h;
      tr_tuning := tuning_acc; tr_tuning_change := change |},
   (tuning_acc, change)).

#[global] Instance tracker_ops : History tracker := {|
  global_step := tr_global_step;
  global_epoch := tr_global_epoch;
  end_step := tracker_end_step;
  end_epoch := tracker_end_epoch;
  end_tuning := tracker_end_tuning
|}.

(** A clock that advances by two minutes per reading. *)
Definition clock (n : nat) : Q := inject_Z (120 * Z.of_nat n).

Definition fresh_net : net :=
  {| net_name := "net"; net_training := true; net_on_gpu := false;
     net_weights := 0 |}.

Definition tracker_at (global_step : Z) : tracker :=
  {| tr_global_step := global_step; tr_global_epoch := 1;
     tr_step_times := []; tr_losses := []; tr_accs := [];
     tr_epoch_times := [];
     tr_prev_loss := 0; tr_prev_acc := 0;
     tr_tuning := 0; tr_tuning_change := 0 |}.

Definition world_at (global_step : Z) (fs : gmap string Z)
  : world nat Q Z net tracker :=
  {| model := fresh_net; history := tracker_at global_step;
     files := fs; saved_history := None;
     epoch_start := None; epoch_end := None;
     step_start := None; step_end := None;
     ticks := O; log := [] |}.

Definition trainer_of (n : nat) (tune : loaders nat) : trainer nat :=
  {| train_loader := seq 0 n; tune_loader := tune;
     batches_per_epoch := Z.of_nat n; ckpt_dir := "ckpt" |}.

(** A trainer whose only tuning source has no batch. *)
Definition empty_tuning : trainer nat := trainer_of 20 (OneLoader []).

(** A trainer with two tuning sources, of two batches and one batch. *)
Definition two_sources : trainer nat :=
  trainer_of 20 (LoaderList [[1; 2]; [4]]%nat).

(** The world at the end of the second epoch: the epoch started at time 0,
    the clock now reads 240 seconds; the two steps of the epoch had loss
    1/2 and accuracy 4/5, the previous epoch had average loss 3/4 and
    average accuracy 27/40, and tuning accuracy went up. *)
Definition tracker_mid_epoch : tracker :=
  {| tr_global_step := 40; tr_global_epoch := 2;
     tr_step_times := [1; 1]%Q;
     tr_losses := [1 # 2; 1 # 2]%Q;
     tr_accs := [4 # 5; 4 # 5]%Q;
     tr_epoch_times := [240]%Q;
     tr_prev_loss := 3 # 4; tr_prev_acc := 27 # 40;
     tr_tuning := 4 # 5; tr_tuning_change := 1 # 10 |}.

Definition world_epoch_end : world nat Q Z net tracker :=
  {| model := fresh_net; history := tracker_mid_epoch;
     files := ∅; saved_history := None;
     epoch_start := Some 0%Q; epoch_end := None;
     step_start := None; step_end := None;
     ticks := 2; log := [] |}.

End Toy.

(** * Properties *)

(** ** Comparisons, strings *)

Lemma ltb_lt (a b : Q) : ltb a b = true <-> (a < b)%Q.
Proof.
  unfold ltb. rewrite Qlt_alt.
  destruct (a ?= b)%Q; split; congruence.
Qed.

Lemma ltb_ge (a b : Q) : ltb a b = false <-> (b <= a)%Q.
Proof.
  split; intros Hab.
  - apply Qnot_lt_le. intros Hlt. apply ltb_lt in Hlt. congruence.
  - destruct (ltb a b) eqn:E; [|reflexivity].
    apply ltb_lt in E. exfalso. exact (Qlt_not_le _ _ E Hab).
Qed.

Lemma rev_app_append (a b c : string) :
  String.rev_app (a +:+ b) c = String.rev_app b (String.rev_app a c).
Proof.
  revert c. induction a as [|x a IH]; intros c; simpl; [reflexivity|].
  apply IH.
Qed.

Lemma ends_with_append (suffix a b : string) :
  ends_with suffix (a +:+ b)
  = starts_with (String.rev suffix) (String.rev_app b (String.rev a)).
Proof.
  unfold ends_with, String.rev at 2. rewrite rev_app_append. reflexivity.
Qed.

#[local] Instance ltb_proper : Proper (Qeq ==> Qeq ==> eq) ltb.
Proof. intros a a' Ha b b' Hb. unfold ltb. rewrite Ha, Hb. reflexivity. Qed.

#[local] Instance round_half_even_proper : Proper (Qeq ==> eq) round_half_even.
Proof.
  intros a a' Ha. unfold round_half_even.
  rewrite (Qfloor_comp _ _ Ha).
  assert (E : (a - inject_Z (Qfloor a') ?= 1 # 2)%Q
            = (a' - inject_Z (Qfloor a') ?= 1 # 2)%Q) by (rewrite Ha; reflexivity).
  rewrite E. reflexivity.
Qed.

#[local] Instance format_f_proper (width prec : nat) :
  Proper (Qeq ==> eq) (format_f width prec).
Proof.
  intros a a' Ha. unfold format_f.
  assert (E : round_half_even (Qabs a * inject_Z (10 ^ Z.of_nat prec))
            = round_half_even (Qabs a' * inject_Z (10 ^ Z.of_nat prec)))
    by (rewrite Ha; reflexivity).
  rewrite E, Ha. reflexivity.
Qed.

#[local] Instance pretty_time_proper : Proper (Qeq ==> eq) pretty_time.
Proof.
  intros a a' Ha. unfold pretty_time. rewrite !Ha. reflexivity.
Qed.

(** The branch of [pretty_time] taken at each duration. *)
Lemma pretty_time_secs (d : Q) :
  (d < 60)%Q -> pretty_time d = format_f 4 2 d +:+ " secs".
Proof.
  intros H. unfold pretty_time. apply ltb_lt in H. rewrite H. reflexivity.
Qed.

Lemma pretty_time_mins (d : Q) :
  (60 <= d)%Q -> (d < 3600)%Q ->
  pretty_time d = format_f 4 2 (d / 60) +:+ " mins".
Proof.
  intros H1 H2. unfold pretty_time.
  apply ltb_ge in H1. apply ltb_lt in H2. rewrite H1, H2. reflexivity.
Qed.

Lemma pretty_time_hrs (d : Q) :
  (3600 <= d)%Q -> (d < 86400)%Q ->
  pretty_time d = format_f 4 2 (d / 60 / 60) +:+ " hrs".
Proof.
  intros H1 H2. unfold pretty_time.
  assert (H0 : (60 <= d)%Q) by (eapply Qle_trans; [|exact H1]; discriminate).
  apply ltb_ge in H0, H1. apply ltb_lt in H2. rewrite H0, H1, H2. reflexivity.
Qed.

Lemma pretty_time_days (d : Q) :
  (86400 <= d)%Q ->
  pretty_time d = format_f 3 2 (d / 60 / 60 / 24) +:+ " days".
Proof.
  intros H2. unfold pretty_time.
  assert (H1 : (3600 <= d)%Q) by (eapply Qle_trans; [|exact H2]; discriminate).
  assert (H0 : (60 <= d)%Q) by (eapply Qle_trans; [|exact H1]; discriminate).
  apply ltb_ge in H0, H1, H2. rewrite H0, H1, H2. reflexivity.
Qed.

(** The unit that a printed duration ends with. *)
Lemma pretty_time_unit (d : Q) :
  (ends_with " secs" (pretty_time d) = ltb d 60)
  /\ (ends_with " mins" (pretty_time d) = negb (ltb d 60) && ltb d 3600)
  /\ (ends_with " hrs" (pretty_time d) = negb (ltb d 3600) && ltb d 86400)
  /\ (ends_with " days" (pretty_time d) = negb (ltb d 86400)).
Proof.
  unfold pretty_time.
  destruct (ltb d 60) eqn:E1.
  { assert (E2 : ltb d 3600 = true).
    { apply ltb_lt. apply ltb_lt in E1. eapply Qlt_trans; [exact E1|reflexivity]. }
    assert (E3 : ltb d 86400 = true).
    { apply ltb_lt. apply ltb_lt in E1. eapply Qlt_trans; [exact E1|reflexivity]. }
    rewrite E2, E3, !ends_with_append. repeat split. }
  destruct (ltb d 3600) eqn:E2.
  { assert (E3 : ltb d 86400 = true).
    { apply ltb_lt. apply ltb_lt in E2. eapply Qlt_trans; [exact E2|reflexivity]. }
    rewrite E3, !ends_with_append. repeat split. }
  destruct (ltb d 86400) eqn:E3; rewrite !ends_with_append; repeat split.
Qed.


(** ** The harness *)

Section HarnessProofs.

Context {Batch Tensor Params M H : Type}.
Context {model_ops : Model Batch Tensor Params M}.
Context {history_ops : History H}.

Variable clock : nat -> Q.

Local Abbreviation World := (world Batch Tensor Params M H).

Lemma mod_ok (a b : Z) : b <> 0 -> mod_ a b = Ok (a mod b).
Proof.
  intros Hb. unfold mod_. destruct (Z.eqb_spec b 0); [contradiction|reflexivity].
Qed.

Lemma truediv_ok (a : Q) (b : Z) :
  b <> 0 -> truediv a (inject_Z b) = Ok (a / inject_Z b)%Q.
Proof.
  intros Hb. unfold truediv.
  destruct (Qeq_bool (inject_Z b) 0) eqn:E; [|reflexivity].
  apply Qeq_bool_eq in E. unfold Qeq in E. simpl in E. lia.
Qed.

(** C6: with at least one batch per epoch, [steps_remaining] returns, leaves
    the world as it was, and its value plus [global_step mod
    batches_per_epoch] is [batches_per_epoch]. *)
Theorem steps_remaining_complement (self : trainer Batch) (w : World) :
  1 <= batches_per_epoch self ->
  exists remaining : Z,
    steps_remaining self w = (Ok remaining, w)
    /\ remaining + global_step (history w) mod batches_per_epoch self
       = batches_per_epoch self.
Proof.
  intros Hbpe.
  exists (batches_per_epoch self
          - global_step (history w) mod batches_per_epoch self).
  split; [|lia].
  unfold steps_remaining, bind, read_global_step, lift, ret.
  rewrite mod_ok by lia. reflexivity.
Qed.

Lemma progress_percent_eval (self : trainer Batch) (w : World) :
  batches_per_epoch self <> 0 ->
  progress_percent self w
  = (Ok (ceil (inject_Z (global_step (history w) mod batches_per_epoch self)
               / inject_Z (batches_per_epoch self) * 100 / 10) * 10), w).
Proof.
  intros Hbpe.
  unfold progress_percent, bind, read_global_step, lift, ret.
  rewrite mod_ok by exact Hbpe. rewrite truediv_ok by exact Hbpe.
  reflexivity.
Qed.

Lemma tenths_bounds (r b : Z) :
  0 <= r < b ->
  0 <= Qceiling (inject_Z r / inject_Z b * 100 / 10) <= 10.
Proof.
  intros Hr.
  assert (Hb : (0 < inject_Z b)%Q) by (unfold Qlt; simpl; lia).
  assert (Hr0 : (0 <= inject_Z r)%Q) by (unfold Qle; simpl; lia).
  assert (Hrb : (inject_Z r <= inject_Z b)%Q) by (unfold Qle; simpl; lia).
  assert (Hq0 : (0 <= inject_Z r / inject_Z b)%Q).
  { apply Qle_shift_div_l; [exact Hb|]. rewrite Qmult_0_l. exact Hr0. }
  assert (Hq1 : (inject_Z r / inject_Z b <= 1)%Q).
  { apply Qle_shift_div_r; [exact Hb|]. rewrite Qmult_1_l. exact Hrb. }
  set (q := (inject_Z r / inject_Z b)%Q) in *.
  assert (E : (q * 100 / 10 == q * 10)%Q) by field.
  rewrite (Qceiling_comp _ _ E).
  split.
  - change 0 with (Qceiling 0). apply Qceiling_resp_le.
    apply Qmult_le_0_compat; [exact Hq0|discriminate].
  - change 10 with (Qceiling 10). apply Qceiling_resp_le.
    apply Qle_trans with (1 * 10)%Q; [|discriminate].
    apply Qmult_le_compat_r; [exact Hq1|discriminate].
Qed.


(** C9: on the base class, [step], [_checkpoint] and [_load_last] raise
    [NotImplementedError] at once: the world they return is the world they
    were called in, so no attribute, file, log entry or collaborator has
    changed. *)
Theorem base_methods_not_implemented
    (self : trainer Batch) (batch : Batch) (is_best : bool) (w : World) :
  step TrainerBase self batch w
  = (Raise (NotImplementedError "Deriving classes must implement."), w)
  /\ _checkpoint TrainerBase self is_best w
     = (Raise (NotImplementedError "Deriving classes must implement."), w)
  /\ _load_last TrainerBase self w
     = (Raise (NotImplementedError "Deriving classes must implement."), w).
Proof. repeat split. Qed.

(** *** Checkpoint paths *)

Lemma append_inj_l (a b c : string) : a +:+ b = a +:+ c -> b = c.
Proof.
  induction a as [|x a IH]; simpl; intros E; [exact E|].
  injection E as E. exact (IH E).
Qed.

Lemma starts_with_slash_name (name rest : string) :
  starts_with "/" (name +:+ String "_" rest) = starts_with "/" name.
Proof. destruct name; reflexivity. Qed.

Lemma path_join_inj_r (dir a b : string) :
  starts_with "/" a = starts_with "/" b ->
  path_join dir a = path_join dir b -> a = b.
Proof.
  unfold path_join. intros Hs. rewrite Hs.
  destruct (starts_with "/" b); [trivial|].
  destruct ((dir =? "")%string || ends_with "/" dir); intros E.
  - exact (append_inj_l _ _ _ E).
  - apply append_inj_l in E. exact (append_inj_l _ _ _ E).
Qed.

(** The two checkpoint slots of a model are different files. *)
Lemma latest_is_not_best (dir name : string) :
  path_join dir (name +:+ "_latest") <> path_join dir (name +:+ "_best").
Proof.
  intros E. apply path_join_inj_r in E.
  - apply append_inj_l in E. discriminate E.
  - rewrite !starts_with_slash_name. reflexivity.
Qed.

(** With a directory that is not empty and has no trailing separator, and a
    model name that is not absolute, the path is [dir/name_slot]. *)
Lemma path_join_plain (dir name slot : string) :
  dir <> "" -> ends_with "/" dir = false -> starts_with "/" name = false ->
  path_join dir (name +:+ String "_" slot)
  = dir +:+ "/" +:+ name +:+ String "_" slot.
Proof.
  intros Hd He Hn. unfold path_join.
  rewrite starts_with_slash_name, Hn, He.
  apply String.eqb_neq in Hd. rewrite Hd. reflexivity.
Qed.

Lemma ckpt_path_eval (self : trainer Batch) (is_best : bool) (w : World) :
  ckpt_path self is_best w
  = (Ok (path_join (ckpt_dir self)
           (model_name (model w)
            +:+ (if is_best then "_best" else "_latest"))), w).
Proof. destruct is_best; reflexivity. Qed.


(** *** Construction *)

Lemma base_init_fresh (cls : methods)
    (train_loader : list Batch) (tune_loader : loaders Batch)
    (ckpt_dir : string) (w : World) :
  global_step (history w) <= 1 ->
  TrainerBase__init__ cls train_loader tune_loader ckpt_dir w
  = (Ok {| train_loader := train_loader; tune_loader := tune_loader;
           batches_per_epoch := Z.of_nat (length train_loader);
           ckpt_dir := ckpt_dir |}, w).
Proof.
  intros Hgs. unfold TrainerBase__init__, bind, read_global_step.
  apply Z.ltb_ge in Hgs. rewrite Hgs. reflexivity.
Qed.

Lemma load_last_found (self : trainer Batch) (w : World) (p : Params) :
  files w !! path_join (ckpt_dir self) (model_name (model w) +:+ "_latest")
  = Some p ->
  _load_last PyTorchTrainer self w
  = (Ok tt,
     with_state (model_load_state_dict p (model w)) (history w)
       [ETorchLoad (path_join (ckpt_dir self)
                      (model_name (model w) +:+ "_latest"));
        EModel (CLoadStateDict p)] w).
Proof.
  intros Hp.
  unfold _load_last, PyTorchTrainer, PyTorchTrainer_load_last, bind.
  rewrite ckpt_path_eval. unfold torch_load. rewrite Hp.
  unfold call_model, emit, set_model, with_state.
  cbn [model history files saved_history epoch_start epoch_end step_start
       step_end ticks log].
  rewrite <- !app_assoc. reflexivity.
Qed.

Lemma load_last_missing (self : trainer Batch) (w : World) :
  files w !! path_join (ckpt_dir self) (model_name (model w) +:+ "_latest")
  = None ->
  _load_last PyTorchTrainer self w
  = (Raise (FileNotFoundError
              (path_join (ckpt_dir self) (model_name (model w) +:+ "_latest"))),
     with_state (model w) (history w)
       [ETorchLoad (path_join (ckpt_dir self)
                      (model_name (model w) +:+ "_latest"))] w).
Proof.
  intros Hp.
  unfold _load_last, PyTorchTrainer, PyTorchTrainer_load_last, bind.
  rewrite ckpt_path_eval. unfold torch_load. rewrite Hp. reflexivity.
Qed.

Lemma pytorch_init_fresh
    (train_loader : list Batch) (tune_loader : loaders Batch)
    (ckpt_dir : string) (w : World) :
  global_step (history w) <= 1 ->
  PyTorchTrainer__init__ train_loader tune_loader ckpt_dir w
  = (Ok {| train_loader := train_loader; tune_loader := tune_loader;
           batches_per_epoch := Z.of_nat (length train_loader);
           ckpt_dir := ckpt_dir |},
     with_state (model_cuda (model w)) (history w) [EModel CCuda] w).
Proof.
  intros Hgs. unfold PyTorchTrainer__init__, bind at 1.
  rewrite base_init_fresh by exact Hgs. reflexivity.
Qed.

Lemma pytorch_init_resumed
    (train_loader : list Batch) (tune_loader : loaders Batch)
    (ckpt_dir : string) (w : World) (p : Params) :
  1 < global_step (history w) ->
  files w !! path_join ckpt_dir (model_name (model w) +:+ "_latest") = Some p ->
  PyTorchTrainer__init__ train_loader tune_loader ckpt_dir w
  = (Ok {| train_loader := train_loader; tune_loader := tune_loader;
           batches_per_epoch := Z.of_nat (length train_loader);
           ckpt_dir := ckpt_dir |},
     with_state (model_cuda (model_load_state_dict p (model w))) (history w)
       [EPrint "Loading last checkpoint...";
        ETorchLoad (path_join ckpt_dir (model_name (model w) +:+ "_latest"));
        EModel (CLoadStateDict p);
        EModel CCuda] w).
Proof.
  intros Hgs Hp.
  unfold PyTorchTrainer__init__, TrainerBase__init__, bind, read_global_step.
  apply Z.ltb_lt in Hgs. rewrite Hgs. unfold print, bind.
  rewrite (load_last_found _ (emit (EPrint "Loading last checkpoint...") w) p)
    by exact Hp.
  unfold ret, call_model, emit, set_model, with_state.
  cbn [model history files saved_history epoch_start epoch_end step_start
       step_end ticks log].
  rewrite <- !app_assoc. reflexivity.
Qed.

Lemma pytorch_init_missing
    (train_loader : list Batch) (tune_loader : loaders Batch)
    (ckpt_dir : string) (w : World) :
  1 < global_step (history w) ->
  files w !! path_join ckpt_dir (model_name (model w) +:+ "_latest") = None ->
  PyTorchTrainer__init__ train_loader tune_loader ckpt_dir w
  = (Raise (FileNotFoundError
              (path_join ckpt_dir (model_name (model w) +:+ "_latest"))),
     with_state (model w) (history w)
       [EPrint "Loading last checkpoint...";
        ETorchLoad (path_join ckpt_dir (model_name (model w) +:+ "_latest"))]
       w).
Proof.
  intros Hgs Hp.
  unfold PyTorchTrainer__init__, TrainerBase__init__, bind, read_global_step.
  apply Z.ltb_lt in Hgs. rewrite Hgs. unfold print, bind.
  rewrite (load_last_missing _ (emit (EPrint "Loading last checkpoint...") w))
    by exact Hp.
  unfold emit, with_state.
  cbn [model history files saved_history epoch_start epoch_end step_start
       step_end ticks log].
  rewrite <- !app_assoc. reflexivity.
Qed.

(** C3: construction of the PyTorch trainer.  With [global_step > 1] and
    the "latest" file present, the constructor prints its notice, reads
    that file, hands its content to [load_state_dict] and moves the model
    to the GPU; the log of the construction holds no forward, optimize or
    zero_grad call.  With [global_step > 1] and no such file the
    constructor raises and returns no trainer.  With [global_step <= 1] the
    base constructor leaves the world as it was, the PyTorch constructor
    only calls [cuda], and no file is read.  For a model whose
    [state_dict] returns what [load_state_dict] was given and is not
    affected by [cuda], the parameters after construction are the file's
    content in the first case and the parameters before construction in
    the last. *)
Theorem init_restores_latest
    (train_loader : list Batch) (tune_loader : loaders Batch)
    (ckpt_dir : string) (w : World) :
  let self :=
    {| train_loader := train_loader; tune_loader := tune_loader;
       batches_per_epoch := Z.of_nat (length train_loader);
       ckpt_dir := ckpt_dir |} in
  let latest := path_join ckpt_dir (model_name (model w) +:+ "_latest") in
  (forall p : Params,
     1 < global_step (history w) -> files w !! latest = Some p ->
     PyTorchTrainer__init__ train_loader tune_loader ckpt_dir w
     = (Ok self,
        with_state (model_cuda (model_load_state_dict p (model w))) (history w)
          [EPrint "Loading last checkpoint..."; ETorchLoad latest;
           EModel (CLoadStateDict p); EModel CCuda] w))
  /\ (1 < global_step (history w) -> files w !! latest = None ->
      PyTorchTrainer__init__ train_loader tune_loader ckpt_dir w
      = (Raise (FileNotFoundError latest),
         with_state (model w) (history w)
           [EPrint "Loading last checkpoint..."; ETorchLoad latest] w))
  /\ (global_step (history w) <= 1 ->
      (forall cls : methods,
         TrainerBase__init__ cls train_loader tune_loader ckpt_dir w
         = (Ok self, w))
      /\ PyTorchTrainer__init__ train_loader tune_loader ckpt_dir w
         = (Ok self,
            with_state (model_cuda (model w)) (history w) [EModel CCuda] w))
  /\ ((forall (p : Params) (m : M),
         model_state_dict (model_load_state_dict p m) = p) ->
      (forall m : M, model_state_dict (model_cuda m) = model_state_dict m) ->
      forall (self' : trainer Batch) (w' : World),
        PyTorchTrainer__init__ train_loader tune_loader ckpt_dir w
        = (Ok self', w') ->
        if 1 <? global_step (history w)
        then files w !! latest = Some (model_state_dict (model w'))
        else model_state_dict (model w') = model_state_dict (model w)).
Proof.
  intros self latest.
  split; [intros p Hgs Hp; apply pytorch_init_resumed; assumption|].
  split; [intros Hgs Hp; apply pytorch_init_missing; assumption|].
  split.
  { intros Hgs. split.
    - intros cls. apply base_init_fresh. exact Hgs.
    - apply pytorch_init_fresh. exact Hgs. }
  intros Hload Hcuda self' w' E.
  destruct (1 <? global_step (history w)) eqn:Hgs.
  - apply Z.ltb_lt in Hgs.
    destruct (files w !! latest) as [p|] eqn:Hp.
    + rewrite (pytorch_init_resumed _ _ _ _ p Hgs Hp) in E.
      injection E as _ E. subst w'. cbn [with_state model].
      rewrite Hcuda, Hload. reflexivity.
    + rewrite (pytorch_init_missing _ _ _ _ Hgs Hp) in E. discriminate E.
  - apply Z.ltb_ge in Hgs.
    rewrite (pytorch_init_fresh _ _ _ _ Hgs) in E.
    injection E as _ E. subst w'. cbn [with_state model].
    apply Hcuda.
Qed.

(** *** The tuning pass *)

Local Abbreviation Forward := (@CForward Batch Tensor Params).

Lemma emit_with_state (e : event Batch Tensor Params) (m : M) (h : H)
    (evs : list (event Batch Tensor Params)) (w0 : World) :
  emit e (with_state m h evs w0) = with_state m h (evs ++ [e]) w0.
Proof. unfold emit, with_state. simpl. rewrite app_assoc. reflexivity. Qed.

Lemma set_model_with_state (m' m : M) (h : H)
    (evs : list (event Batch Tensor Params)) (w0 : World) :
  set_model m' (with_state m h evs w0) = with_state m' h evs w0.
Proof. reflexivity. Qed.

Lemma tune_batches_eval (batches : list Batch) :
  forall (cum_acc : Q) (m : M) (h : H)
         (evs : list (event Batch Tensor Params)) (w0 : World),
    tune_batches batches cum_acc (with_state m h evs w0)
    = (Ok (fold_left Qplus (snd (forward_all batches m)) cum_acc),
       with_state (fst (forward_all batches m)) h
         (evs ++ map (fun batch => EModel (Forward batch)) batches) w0).
Proof.
  induction batches as [|batch rest IH]; intros cum_acc m h evs w0.
  - simpl. rewrite app_nil_r. reflexivity.
  - cbn [tune_batches forward_all]. unfold bind at 1, call_forward.
    cbn [with_state model].
    destruct (model_forward batch m) as [m1 [loss acc]].
    rewrite set_model_with_state, emit_with_state, IH.
    destruct (forward_all rest m1) as [m2 accs]. cbn [fst snd map fold_left].
    rewrite <- app_assoc. reflexivity.
Qed.

Lemma tune_eval (batches : list Batch) (m : M) (h : H)
    (evs : list (event Batch Tensor Params)) (w0 : World) :
  batches <> [] ->
  _tune batches (with_state m h evs w0)
  = (Ok tt,
     let '(m', h', evs') := tune_source batches (m, h, evs) in
     with_state m' h' evs' w0).
Proof.
  intros Hne. unfold _tune, bind at 1. rewrite tune_batches_eval.
  unfold bind at 1, lift. rewrite truediv_ok.
  2:{ destruct batches; [contradiction|]. simpl. lia. }
  unfold bind, history_end_tuning, print, tune_source.
  cbn [with_state history].
  destruct (forward_all batches m) as [m' accs]. cbn [fst snd].
  destruct (end_tuning _ h) as [h' [avg_acc change_acc]]. cbn [fst snd].
  unfold emit, set_history, with_state.
  cbn [model history files saved_history epoch_start epoch_end step_start
       step_end ticks log].
  rewrite <- !app_assoc. reflexivity.
Qed.

Lemma tune_empty (m : M) (h : H)
    (evs : list (event Batch Tensor Params)) (w0 : World) :
  _tune [] (with_state m h evs w0)
  = (Raise ZeroDivisionError, with_state m h evs w0).
Proof. reflexivity. Qed.

Lemma for_each_tune (srcs : list (list Batch)) (w0 : World) :
  Forall (fun src => src <> []) srcs ->
  forall (m : M) (h : H) (evs : list (event Batch Tensor Params)),
    for_each srcs _tune (with_state m h evs w0)
    = (Ok tt,
       let '(m', h', evs') :=
         fold_left (fun s src => tune_source src s) srcs (m, h, evs) in
       with_state m' h' evs' w0).
Proof.
  induction 1 as [|src srcs Hsrc _ IH]; intros m h evs.
  - reflexivity.
  - cbn [for_each fold_left]. unfold bind. rewrite tune_eval by exact Hsrc.
    destruct (tune_source src (m, h, evs)) as [[m1 h1] evs1].
    apply IH.
Qed.

Lemma model_calls_app (a b : list (event Batch Tensor Params)) :
  model_calls (a ++ b) = model_calls a ++ model_calls b.
Proof. unfold model_calls. apply flat_map_app. Qed.

Lemma model_calls_forwards (batches : list Batch) :
  model_calls (map (fun batch => EModel (Forward batch)) batches)
  = map Forward batches.
Proof.
  induction batches as [|b rest IH]; [reflexivity|].
  simpl. f_equal. exact IH.
Qed.

Lemma tune_source_calls (batches : list Batch) (m : M) (h : H)
    (evs : list (event Batch Tensor Params)) :
  model_calls (snd (tune_source batches (m, h, evs)))
  = model_calls evs ++ map Forward batches.
Proof.
  unfold tune_source.
  destruct (forward_all batches m) as [m' accs].
  destruct (end_tuning _ h) as [h' r]. cbn [snd].
  rewrite !model_calls_app, model_calls_forwards. simpl.
  rewrite app_nil_r. reflexivity.
Qed.

Lemma tune_sources_calls (srcs : list (list Batch)) :
  forall (m : M) (h : H) (evs : list (event Batch Tensor Params)),
    model_calls
      (snd (fold_left (fun s src => tune_source src s) srcs (m, h, evs)))
    = model_calls evs ++ map Forward (concat srcs).
Proof.
  induction srcs as [|src srcs IH]; intros m h evs.
  - simpl. rewrite app_nil_r. reflexivity.
  - cbn [fold_left concat].
    pose proof (tune_source_calls src m h evs) as Hsrc.
    destruct (tune_source src (m, h, evs)) as [[m1 h1] evs1].
    rewrite IH. cbn [snd] in Hsrc. rewrite Hsrc, map_app, app_assoc.
    reflexivity.
Qed.

(** C7, for data sources that all hold a batch: the tuning pass returns
    normally, and what it did is exactly this: the model was put in
    evaluation mode; for each source in turn (the single one, or each of
    the list) every batch went through [forward], the accuracies were
    summed and divided by the source's batch count, the quotient was given
    to [end_tuning], and one line was printed; then the model was put in
    training mode.  The calls made on the model are [eval], one [forward]
    per batch and [train]; no [optimize]. *)
Theorem tuning_sequence (self : trainer Batch) (w : World) :
  Forall (fun src => src <> []) (sources_of (tune_loader self)) ->
  _tuning self w
  = (Ok tt,
     let '(m', h', evs) :=
       tuning_pass (sources_of (tune_loader self)) (model w) (history w) in
     with_state m' h' evs w)
  /\ model_calls
       (snd (tuning_pass (sources_of (tune_loader self)) (model w) (history w)))
     = CEval :: map Forward (concat (sources_of (tune_loader self)))
       ++ [CTrain].
Proof.
  intros Hne. split.
  - unfold _tuning, bind at 1, call_model.
    change (emit (EModel CEval) (set_model (model_eval (model w)) w))
      with (with_state (model_eval (model w)) (history w) [EModel CEval] w).
    assert (Hrun :
      match tune_loader self with
      | OneLoader l => _tune l
      | LoaderList ls => for_each ls _tune
      end (with_state (model_eval (model w)) (history w) [EModel CEval] w)
      = (Ok tt,
         let '(m', h', evs') :=
           fold_left (fun s src => tune_source src s)
             (sources_of (tune_loader self))
             (model_eval (model w), history w, [EModel CEval]) in
         with_state m' h' evs' w)).
    { destruct (tune_loader self) as [l|ls]; cbn [sources_of] in *.
      - rewrite tune_eval by (inversion Hne; assumption). reflexivity.
      - apply for_each_tune. exact Hne. }
    unfold bind. rewrite Hrun. unfold tuning_pass.
    destruct (fold_left _ _ _) as [[m1 h1] evs1].
    unfold call_model, emit, set_model, with_state.
    cbn [model history files saved_history epoch_start epoch_end step_start
         step_end ticks log].
    rewrite <- !app_assoc. reflexivity.
  - unfold tuning_pass.
    pose proof (tune_sources_calls (sources_of (tune_loader self))
                  (model_eval (model w)) (history w) [EModel CEval]) as Hc.
    destruct (fold_left _ _ _) as [[m1 h1] evs1]. cbn [snd] in *.
    rewrite model_calls_app, Hc. reflexivity.
Qed.

(** *** Progress reporting *)

Lemma report_every_div (self : trainer Batch) :
  report_every self = batches_per_epoch self / 10.
Proof.
  unfold report_every, floor, Qdiv, Qmult, Qinv, inject_Z. simpl.
  rewrite Z.mul_1_r. reflexivity.
Qed.

Lemma report_every_zero (self : trainer Batch) :
  0 <= batches_per_epoch self < 10 -> report_every self = 0.
Proof. intros Hb. rewrite report_every_div. apply Z.div_small. exact Hb. Qed.

Lemma report_every_pos (self : trainer Batch) :
  10 <= batches_per_epoch self -> 1 <= report_every self.
Proof.
  intros Hb. rewrite report_every_div.
  apply Z.div_le_lower_bound; lia.
Qed.

Lemma report_every_nonzero (self : trainer Batch) :
  report_every self <> 0 -> batches_per_epoch self <> 0.
Proof.
  intros Hre Hb. apply Hre. rewrite report_every_div, Hb. reflexivity.
Qed.

Lemma steps_remaining_eval (self : trainer Batch) (w : World) :
  batches_per_epoch self <> 0 ->
  steps_remaining self w
  = (Ok (batches_per_epoch self
         - global_step (history w) mod batches_per_epoch self), w).
Proof.
  intros Hbpe. unfold steps_remaining, bind, read_global_step, lift, ret.
  rewrite mod_ok by exact Hbpe. reflexivity.
Qed.

Lemma report_step_raise (self : trainer Batch) (global_step : Z)
    (loss avg_loss acc avg_acc avg_time : Q) (w : World) :
  report_every self = 0 ->
  _report_step self global_step loss avg_loss acc avg_acc avg_time w
  = (Raise ZeroDivisionError, w).
Proof.
  intros Hre. unfold _report_step, bind, lift. rewrite Hre. reflexivity.
Qed.

Lemma report_step_skip (self : trainer Batch) (global_step : Z)
    (loss avg_loss acc avg_acc avg_time : Q) (w : World) :
  report_every self <> 0 ->
  global_step mod report_every self <> 0 ->
  _report_step self global_step loss avg_loss acc avg_acc avg_time w
  = (Ok tt, w).
Proof.
  intros Hre Hmod. unfold _report_step, bind, lift.
  rewrite mod_ok by exact Hre.
  destruct (Z.eqb_spec (global_step mod report_every self) 0);
    [contradiction|reflexivity].
Qed.

Lemma report_step_print (self : trainer Batch) (global_step : Z)
    (loss avg_loss acc avg_acc avg_time : Q) (w : World) :
  report_every self <> 0 ->
  global_step mod report_every self = 0 ->
  exists line : string,
    _report_step self global_step loss avg_loss acc avg_acc avg_time w
    = (Ok tt, emit (EPrint line) w).
Proof.
  intros Hre Hmod.
  pose proof (report_every_nonzero self Hre) as Hbpe.
  unfold _report_step, bind at 1, lift.
  rewrite mod_ok by exact Hre. rewrite Hmod. cbn [Z.eqb].
  unfold bind at 1. rewrite progress_percent_eval by exact Hbpe.
  unfold bind at 1. rewrite steps_remaining_eval by exact Hbpe.
  eexists. reflexivity.
Qed.

Lemma mod_is_zero (a b : Z) : mod_ a b = Ok 0 <-> b <> 0 /\ a mod b = 0.
Proof.
  unfold mod_. destruct (Z.eqb_spec b 0) as [E|E].
  - split; [discriminate|]. intros [Hb _]. contradiction.
  - split.
    + intros Hok. injection Hok as Hok. split; assumption.
    + intros [_ Hm]. rewrite Hm. reflexivity.
Qed.

(** Whether [_report_step] prints, in every case. *)
Lemma report_step_cases (self : trainer Batch) (global_step : Z)
    (loss avg_loss acc avg_acc avg_time : Q) (w : World) :
  (mod_ global_step (report_every self) = Ok 0 ->
   exists line : string,
     _report_step self global_step loss avg_loss acc avg_acc avg_time w
     = (Ok tt, emit (EPrint line) w))
  /\ (mod_ global_step (report_every self) <> Ok 0 ->
      snd (_report_step self global_step loss avg_loss acc avg_acc avg_time w)
      = w).
Proof.
  split.
  - intros Hm. apply mod_is_zero in Hm as [Hre Hmod].
    apply report_step_print; assumption.
  - intros Hm.
    destruct (Z.eq_dec (report_every self) 0) as [Hre|Hre].
    + rewrite report_step_raise by exact Hre. reflexivity.
    + rewrite report_step_skip; [reflexivity|exact Hre|].
      intros Hmod. apply Hm. apply mod_is_zero. split; assumption.
Qed.

(** *** Counting the steps that report *)

Lemma count_reports_add (every : Z) (a b : nat) :
  forall first : Z,
    count_reports every first (a + b)
    = (count_reports every first a
       + count_reports every (first + Z.of_nat a) b)%nat.
Proof.
  induction a as [|a IH]; intros first.
  - simpl. rewrite Z.add_0_r. reflexivity.
  - cbn [Nat.add count_reports]. rewrite IH.
    replace (first + 1 + Z.of_nat a) with (first + Z.of_nat (S a)) by lia.
    lia.
Qed.

Lemma count_reports_shift (every first : Z) (n : nat) :
  every <> 0 ->
  count_reports every (first mod every) n = count_reports every first n.
Proof.
  intros He. revert first. induction n as [|n IH]; intros first; [reflexivity|].
  cbn [count_reports]. rewrite Z.mod_mod by exact He.
  f_equal. rewrite <- (IH (first mod every + 1)), <- (IH (first + 1)).
  f_equal. rewrite Zplus_mod_idemp_l. reflexivity.
Qed.

Lemma count_reports_ten (first : Z) : count_reports 10 first 10 = 1%nat.
Proof.
  rewrite <- count_reports_shift by discriminate.
  pose proof (Z.mod_pos_bound first 10 eq_refl) as Hb.
  assert (Hc : first mod 10 = 0 \/ first mod 10 = 1 \/ first mod 10 = 2
               \/ first mod 10 = 3 \/ first mod 10 = 4 \/ first mod 10 = 5
               \/ first mod 10 = 6 \/ first mod 10 = 7 \/ first mod 10 = 8
               \/ first mod 10 = 9) by lia.
  repeat (destruct Hc as [Hc|Hc]; [rewrite Hc; reflexivity|]).
  rewrite Hc. reflexivity.
Qed.

Lemma count_reports_hundred (first : Z) : count_reports 10 first 100 = 10%nat.
Proof.
  change 100%nat with (10 + (10 + (10 + (10 + (10 + (10 + (10 + (10 + (10 + 10)))))))))%nat.
  rewrite !count_reports_add, !count_reports_ten. reflexivity.
Qed.

Lemma tens_mod_hundred (g : Z) :
  g mod 10 = 0
  <-> exists k : Z,
        In k [10; 20; 30; 40; 50; 60; 70; 80; 90; 100]
        /\ g mod 100 = k mod 100.
Proof.
  split.
  - intros Hg.
    pose proof (Z.mod_pos_bound g 100 eq_refl) as Hb.
    assert (Hr : (g mod 100) mod 10 = 0).
    { rewrite <- Hg. apply Z.mod_mod_divide. exists 10. reflexivity. }
    apply Z.mod_divide in Hr; [|discriminate].
    destruct Hr as [j Hj].
    assert (Hjb : 0 <= j < 10) by lia.
    assert (Hc : j = 0 \/ j = 1 \/ j = 2 \/ j = 3 \/ j = 4 \/ j = 5
                 \/ j = 6 \/ j = 7 \/ j = 8 \/ j = 9) by lia.
    destruct Hc as [Hc|Hc].
    { exists 100. split; [simpl; tauto|]. rewrite Hj, Hc. reflexivity. }
    exists (j * 10). split.
    + repeat (destruct Hc as [Hc|Hc]; [rewrite Hc; simpl; tauto|]).
      rewrite Hc. simpl. tauto.
    + rewrite Hj. symmetry. apply Z.mod_small. lia.
  - intros (k & Hk & Hg).
    assert (Hk10 : (k mod 100) mod 10 = 0).
    { simpl in Hk.
      repeat (destruct Hk as [Hk|Hk]; [rewrite <- Hk; reflexivity|]).
      contradiction. }
    rewrite <- Hg in Hk10. rewrite <- Hk10. symmetry.
    apply Z.mod_mod_divide. exists 10. reflexivity.
Qed.

(** *** One training step *)

Lemma train_steps_cons (cls : methods) (self : trainer Batch)
    (batch : Batch) (rest : list Batch) (w : World) :
  train_steps clock cls self (batch :: rest) w
  = match train_steps clock cls self [batch] w with
    | (Ok _, w1) => train_steps clock cls self rest w1
    | (Raise e, w1) => (Raise e, w1)
    end.
Proof.
  unfold train_steps. cbn [for_each]. unfold bind, ret.
  destruct (_start_step clock self w) as [[[]|e] w1]; [|reflexivity].
  destruct (step cls self batch w1) as [[[loss acc]|e] w2]; [|reflexivity].
  destruct (_end_step clock self loss acc w2) as [[[]|e] w3]; reflexivity.
Qed.

Lemma printed_app (a b : list (event Batch Tensor Params)) :
  printed (a ++ b) = printed a ++ printed b.
Proof. unfold printed. apply flat_map_app. Qed.

(** One step of the PyTorch trainer up to the reporting check: the world
    in which [_report_step] runs and the values it is given. *)
Lemma pytorch_step_once (self : trainer Batch) (batch : Batch) (w : World) :
  let fwd := snd (model_forward batch (model_zero_grad (model w))) in
  let loss := tensor_scalar (fst fwd) in
  let acc := snd fwd in
  let es :=
    end_step (clock (S (ticks w)) - clock (ticks w)) loss acc (history w) in
  exists w1 : World,
    train_steps clock PyTorchTrainer self [batch] w
    = _report_step self (fst (fst (fst (snd es)))) loss (snd (fst (snd es)))
        acc (snd (snd es)) (snd (fst (fst (snd es)))) w1
    /\ history w1 = fst es
    /\ exists evs, log w1 = log w ++ evs /\ printed evs = [].
Proof.
  cbv [train_steps for_each bind ret _start_step time_time step PyTorchTrainer
       PyTorchTrainer_step call_model call_forward _end_step getattr
       history_end_step emit set_model set_step_start
       set_step_end tick set_history].
  cbn [model history files saved_history epoch_start epoch_end step_start
       step_end ticks log].
  destruct (model_forward batch (model_zero_grad (model w)))
    as [m1 [loss acc]].
  cbn [model history files saved_history epoch_start epoch_end step_start
       step_end ticks log fst snd].
  destruct (end_step _ (tensor_scalar loss) acc (history w))
    as [h1 [[[gs avg_time] avg_loss] avg_acc]].
  cbn [fst snd].
  match goal with
  | |- context [_report_step _ _ _ _ _ _ _ ?W] => exists W
  end.
  split.
  { destruct (_report_step self gs (tensor_scalar loss) avg_loss acc avg_acc
                avg_time _) as [[[]|e] w3]; reflexivity. }
  cbn [history log]. split; [reflexivity|].
  eexists. split; [rewrite <- !app_assoc; reflexivity|reflexivity].
Qed.

(** The steps of one epoch with at least ten batches per epoch: every step
    completes, and the lines printed are as many as the step numbers that
    are multiples of [report_every]. *)
Lemma train_steps_reports (self : trainer Batch) (next : H -> Z) :
  10 <= batches_per_epoch self ->
  numbers_steps next ->
  forall (batches : list Batch) (w : World),
    exists (w' : World) (evs : list (event Batch Tensor Params)),
      train_steps clock PyTorchTrainer self batches w = (Ok tt, w')
      /\ log w' = log w ++ evs
      /\ next (history w') = next (history w) + Z.of_nat (length batches)
      /\ length (printed evs)
         = count_reports (report_every self) (next (history w))
             (length batches).
Proof.
  intros Hbpe Hnext.
  pose proof (report_every_pos self Hbpe) as Hre.
  induction batches as [|batch rest IH]; intros w.
  - exists w, []. cbn. rewrite app_nil_r, Z.add_0_r. repeat split.
  - rewrite train_steps_cons.
    destruct (pytorch_step_once self batch w) as (w1 & E1 & Hh1 & evs1 & Hl1 & Hp1).
    cbv zeta in E1, Hh1.
    set (loss := tensor_scalar
                   (fst (snd (model_forward batch
                                (model_zero_grad (model w)))))) in *.
    set (acc := snd (snd (model_forward batch
                            (model_zero_grad (model w))))) in *.
    destruct (Hnext (clock (S (ticks w)) - clock (ticks w))%Q loss acc
                (history w)) as [Hgs Hnx].
    set (es := end_step (clock (S (ticks w)) - clock (ticks w)) loss acc
                 (history w)) in *.
    rewrite E1, Hgs.
    assert (Hstep : exists w2 evs2,
      _report_step self (next (history w)) loss (snd (fst (snd es))) acc
        (snd (snd es)) (snd (fst (fst (snd es)))) w1 = (Ok tt, w2)
      /\ history w2 = history w1
      /\ log w2 = log w1 ++ evs2
      /\ length (printed evs2)
         = if next (history w) mod report_every self =? 0 then 1%nat else 0%nat).
    { destruct (Z.eqb_spec (next (history w) mod report_every self) 0) as [Hm|Hm].
      - destruct (report_step_print self (next (history w)) loss
                    (snd (fst (snd es))) acc (snd (snd es))
                    (snd (fst (fst (snd es)))) w1) as [line Hline];
          [lia|exact Hm|].
        exists (emit (EPrint line) w1), [EPrint line].
        rewrite Hline. repeat split.
      - exists w1, []. rewrite report_step_skip by (lia || exact Hm).
        rewrite app_nil_r. repeat split. }
    destruct Hstep as (w2 & evs2 & E2 & Hh2 & Hl2 & Hp2).
    rewrite E2.
    destruct (IH w2) as (w' & evs & E & Hl & Hn & Hp).
    exists w', (evs1 ++ evs2 ++ evs).
    rewrite E. split; [reflexivity|].
    rewrite Hh2, Hh1, Hnx in Hn, Hp.
    split; [rewrite Hl, Hl2, Hl1, <- !app_assoc; reflexivity|].
    split; [rewrite Hn; cbn [length]; lia|].
    cbn [length count_reports].
    rewrite !printed_app, !length_app, Hp1, Hp2, Hp. reflexivity.
Qed.


(** *** Fewer than ten batches per epoch *)

Lemma end_step_small (self : trainer Batch) (loss acc : Q) (w : World)
    (t0 : Q) :
  report_every self = 0 ->
  step_start w = Some t0 ->
  fst (_end_step clock self loss acc w) = Raise ZeroDivisionError.
Proof.
  intros Hre Hs.
  cbv [_end_step bind time_time getattr history_end_step].
  cbn [model history files saved_history epoch_start epoch_end step_start
       step_end ticks log set_step_end tick].
  rewrite Hs.
  destruct (end_step _ loss acc _) as [h1 [[[gs avg_time] avg_loss] avg_acc]].
  rewrite report_step_raise by exact Hre. reflexivity.
Qed.

Lemma train_steps_small (self : trainer Batch) (batch : Batch)
    (rest : list Batch) (w : World) :
  report_every self = 0 ->
  fst (train_steps clock PyTorchTrainer self (batch :: rest) w)
  = Raise ZeroDivisionError.
Proof.
  intros Hre. rewrite train_steps_cons.
  destruct (pytorch_step_once self batch w) as (w1 & E1 & _).
  cbv zeta in E1. rewrite E1, report_step_raise by exact Hre. reflexivity.
Qed.

(** C10: with fewer than ten batches per epoch [report_every] is 0, the
    reporting check of every step raises [ZeroDivisionError] (in
    [_report_step] before anything is printed, hence in [_end_step] and in
    the loop over the batches at its first step), and so a step that
    completes needs at least ten batches per epoch. *)
Theorem few_batches_abort (self : trainer Batch) :
  0 <= batches_per_epoch self ->
  (batches_per_epoch self < 10 ->
   report_every self = 0
   /\ (forall (global_step : Z) (loss avg_loss acc avg_acc avg_time : Q)
              (w : World),
         mod_ global_step (report_every self) = Raise ZeroDivisionError
         /\ _report_step self global_step loss avg_loss acc avg_acc avg_time w
            = (Raise ZeroDivisionError, w))
   /\ (forall (loss acc t0 : Q) (w : World),
         step_start w = Some t0 ->
         fst (_end_step clock self loss acc w) = Raise ZeroDivisionError)
   /\ (forall (batch : Batch) (rest : list Batch) (w : World),
         fst (train_steps clock PyTorchTrainer self (batch :: rest) w)
         = Raise ZeroDivisionError))
  /\ (forall (batch : Batch) (rest : list Batch) (w : World),
        fst (train_steps clock PyTorchTrainer self (batch :: rest) w) = Ok tt ->
        10 <= batches_per_epoch self).
Proof.
  intros Hnonneg. split.
  - intros Hlt.
    assert (Hre : report_every self = 0) by (apply report_every_zero; lia).
    split; [exact Hre|]. split; [|split].
    + intros. split; [rewrite Hre; reflexivity|].
      apply report_step_raise. exact Hre.
    + intros loss acc t0 w Hs. apply (end_step_small self loss acc w t0 Hre Hs).
    + intros. apply train_steps_small. exact Hre.
  - intros batch rest w Hok.
    destruct (Z_lt_le_dec (batches_per_epoch self) 10) as [Hlt|Hge]; [|lia].
    rewrite train_steps_small in Hok by (apply report_every_zero; lia).
    discriminate Hok.
Qed.

(** *** End of an epoch *)

(** What [_end_epoch] has done when it reaches the checkpoint: the tracker
    closed the epoch, and the report line was built from the second and
    third components of what [end_epoch] returned. *)
Lemma end_epoch_report (cls : methods) (self : trainer Batch) (w : World)
    (t0 : Q) :
  epoch_start w = Some t0 ->
  let time_taken := (clock (ticks w) - t0)%Q in
  let es := snd (end_epoch time_taken (history w)) in
  let avg_time := fst (fst (fst (fst (fst es)))) in
  let avg_loss := snd (fst (fst (fst (fst es)))) in
  let change_loss := snd (fst (fst (fst es))) in
  let is_best := snd es in
  exists w1 : World,
    _end_epoch clock cls self w
    = bind (_checkpoint cls self is_best) (fun _ => history_save) w1
    /\ log w1
       = log w ++ [EHistory (HEndEpoch time_taken);
                   EPrint dividing_lines;
                   EPrint (epoch_report_line avg_time avg_loss change_loss)].
Proof.
  intros Hs.
  cbv [_end_epoch bind time_time getattr history_end_epoch _report_epoch
       _print_dividing_lines print emit set_epoch_end tick set_history].
  cbn [model history files saved_history epoch_start epoch_end step_start
       step_end ticks log].
  rewrite Hs.
  cbn [model history files saved_history epoch_start epoch_end step_start
       step_end ticks log].
  destruct (end_epoch _ (history w))
    as [h1 [[[[[avg_time avg_loss] change_loss] avg_acc] change_acc] is_best]].
  cbn [model history files saved_history epoch_start epoch_end step_start
       step_end ticks log fst snd].
  match goal with
  | |- context [_checkpoint cls self is_best ?W] => exists W
  end.
  split; [reflexivity|].
  cbn [log]. rewrite <- !app_assoc. reflexivity.
Qed.

End HarnessProofs.

(** * Runs on the concrete instance *)

(** C1, evaluated: at the end of an epoch for which the tracker returns
    average loss 1/2, loss change -1/4, average accuracy 4/5 and accuracy
    change +1/8, the report line shows "+0.50000" and "-0.2500%", that is
    the average loss where the loss change belongs and the loss change
    where the accuracy change belongs; the line the two changes would give
    is a different one. *)
Theorem end_epoch_line_shows_avg_loss :
  fst (_end_epoch Toy.clock PyTorchTrainer Toy.two_sources Toy.world_epoch_end)
  = Ok tt
  /\ (let '(avg_time, avg_loss, change_loss, avg_acc, change_acc, _) :=
        snd (end_epoch 240 (history Toy.world_epoch_end)) in
      (avg_time == 240 /\ avg_loss == 1 # 2 /\ change_loss == - (1 # 4)
       /\ avg_acc == 4 # 5 /\ change_acc == 1 # 8)%Q
      /\ printed (log (snd (_end_epoch Toy.clock PyTorchTrainer
                              Toy.two_sources Toy.world_epoch_end)))
         = [dividing_lines; epoch_report_line avg_time avg_loss change_loss]
      /\ epoch_report_line avg_time avg_loss change_loss
         = tab +:+ tab +:+ tab +:+ "+   0.50000" +:+ tab +:+ tab
           +:+ "-0.2500%" +:+ tab +:+ "4.00 mins" +:+ tab
      /\ epoch_report_line avg_time change_loss change_acc
         = tab +:+ tab +:+ tab +:+ "  -0.25000" +:+ tab +:+ tab
           +:+ "+0.1250%" +:+ tab +:+ "4.00 mins" +:+ tab).
Proof. vm_compute. repeat split. Qed.


(** C3 on a tracker at step 5 with a "latest" file holding 42. *)
Lemma init_restores_latest_witness :
  PyTorchTrainer__init__ (seq 0 3) (OneLoader [1%nat]) "ckpt"
    (Toy.world_at 5 {["ckpt/net_latest" := 42]})
  = (Ok {| train_loader := seq 0 3; tune_loader := OneLoader [1%nat];
           batches_per_epoch := 3; ckpt_dir := "ckpt" |},
     with_state
       (model_cuda (model_load_state_dict 42 Toy.fresh_net))
       (Toy.tracker_at 5)
       [EPrint "Loading last checkpoint..."; ETorchLoad "ckpt/net_latest";
        EModel (CLoadStateDict 42); EModel CCuda]
       (Toy.world_at 5 {["ckpt/net_latest" := 42]})).
Proof.
  pose proof (init_restores_latest (seq 0 3) (OneLoader [1%nat]) "ckpt"
                (Toy.world_at 5 {["ckpt/net_latest" := 42]})) as Hinit.
  cbv zeta in Hinit. destruct Hinit as (Hresumed & _).
  apply (Hresumed 42); [reflexivity|vm_compute; reflexivity].
Defined.



(** C6 at global step 47 with 20 batches per epoch. *)
Lemma steps_remaining_complement_witness :
  exists remaining : Z,
    steps_remaining Toy.two_sources (Toy.world_at 47 ∅)
    = (Ok remaining, Toy.world_at 47 ∅)
    /\ remaining + 47 mod 20 = 20.
Proof.
  exact (steps_remaining_complement Toy.two_sources (Toy.world_at 47 ∅)
           ltac:(simpl; lia)).
Defined.

(** C7 on two tuning sources of two batches and one batch. *)
Lemma tuning_sequence_witness :
  fst (_tuning Toy.two_sources (Toy.world_at 0 ∅)) = Ok tt
  /\ model_calls (log (snd (_tuning Toy.two_sources (Toy.world_at 0 ∅))))
     = [CEval; CForward 1%nat; CForward 2%nat; CForward 4%nat; CTrain].
Proof.
  assert (Hne : Forall (fun src : list nat => src <> [])
                  (sources_of (tune_loader Toy.two_sources))).
  { repeat constructor; discriminate. }
  destruct (tuning_sequence Toy.two_sources (Toy.world_at 0 ∅) Hne)
    as [Hrun _].
  rewrite Hrun. split; vm_compute; reflexivity.
Defined.

(** C7 as stated fails on a tuning source without batches: the division by
    the batch count raises, [end_tuning] is not called, nothing is printed
    and the model stays in evaluation mode. *)
Lemma tuning_empty_source_aborts :
  _tuning Toy.empty_tuning (Toy.world_at 0 ∅)
  <> (Ok tt,
      let '(m', h', evs) :=
        tuning_pass (sources_of (tune_loader Toy.empty_tuning))
          (model (Toy.world_at 0 ∅)) (history (Toy.world_at 0 ∅)) in
      with_state m' h' evs (Toy.world_at 0 ∅))
  /\ fst (_tuning Toy.empty_tuning (Toy.world_at 0 ∅))
     = Raise ZeroDivisionError
  /\ log (snd (_tuning Toy.empty_tuning (Toy.world_at 0 ∅))) = [EModel CEval]
  /\ Toy.net_training (model (snd (_tuning Toy.empty_tuning (Toy.world_at 0 ∅))))
     = false.
Proof.
  split; [|vm_compute; repeat split].
  intros E. apply (f_equal fst) in E. vm_compute in E. discriminate E.
Qed.


(** C10 on an epoch of 5 batches. *)
Lemma few_batches_abort_witness :
  fst (train_steps Toy.clock PyTorchTrainer (Toy.trainer_of 5 (OneLoader [1%nat]))
         (seq 0 5) (Toy.world_at 0 ∅))
  = Raise ZeroDivisionError.
Proof.
  assert (H0 : 0 <= batches_per_epoch (Toy.trainer_of 5 (OneLoader [1%nat])))
    by (simpl; lia).
  assert (H10 : batches_per_epoch (Toy.trainer_of 5 (OneLoader [1%nat])) < 10)
    by (simpl; lia).
  destruct (few_batches_abort Toy.clock _ H0) as [Hsmall _].
  destruct (Hsmall H10) as (_ & _ & _ & Hloop).
  apply (Hloop 0%nat (seq 1 4) (Toy.world_at 0 ∅)).
Defined.

(** * Further properties of the harness *)

Section FurtherProperties.

Context {Batch Tensor Params M H : Type}.
Context {model_ops : Model Batch Tensor Params M}.
Context {history_ops : History H}.

Variable clock : nat -> Q.

Local Abbreviation World := (world Batch Tensor Params M H).

(** ** Checkpoint paths *)

Lemma append_assoc_r (a b c : string) : (a +:+ b) +:+ c = a +:+ b +:+ c.
Proof.
  induction a as [|x a IH]; [reflexivity|].
  change (String x ((a +:+ b) +:+ c) = String x (a +:+ b +:+ c)).
  f_equal. exact IH.
Qed.

Lemma path_join_latest_suffix (dir name : string) :
  ends_with "_latest" (path_join dir (name +:+ "_latest")) = true.
Proof.
  unfold path_join.
  destruct (starts_with "/" (name +:+ "_latest")).
  - rewrite ends_with_append. reflexivity.
  - destruct ((dir =? "")%string || ends_with "/" dir).
    + rewrite <- append_assoc_r, ends_with_append. reflexivity.
    + rewrite <- !append_assoc_r, ends_with_append. reflexivity.
Qed.

Lemma path_join_best_suffix (dir name : string) :
  ends_with "_best" (path_join dir (name +:+ "_best")) = true.
Proof.
  unfold path_join.
  destruct (starts_with "/" (name +:+ "_best")).
  - rewrite ends_with_append. reflexivity.
  - destruct ((dir =? "")%string || ends_with "/" dir).
    + rewrite <- append_assoc_r, ends_with_append. reflexivity.
    + rewrite <- !append_assoc_r, ends_with_append. reflexivity.
Qed.

(** X1: [ckpt_path] only reads the model's name: it returns normally and
    leaves the world as it was.  The path for [is_best] false ends in
    "_latest", the path for [is_best] true ends in "_best", and the two are
    never the same file, whatever the directory and the model name. *)
Theorem ckpt_path_slots (self : trainer Batch) (w : World) :
  exists latest best : string,
    ckpt_path self false w = (Ok latest, w)
    /\ ckpt_path self true w = (Ok best, w)
    /\ latest <> best
    /\ ends_with "_latest" latest = true
    /\ ends_with "_best" best = true.
Proof.
  exists (path_join (ckpt_dir self) (model_name (model w) +:+ "_latest")),
         (path_join (ckpt_dir self) (model_name (model w) +:+ "_best")).
  rewrite !ckpt_path_eval.
  split; [reflexivity|]. split; [reflexivity|].
  split; [apply latest_is_not_best|].
  split; [apply path_join_latest_suffix|apply path_join_best_suffix].
Qed.

(** ** Construction of the base class *)

(** X2: constructing the base class itself on a tracker with
    [global_step > 1] prints the loading notice and then raises
    [NotImplementedError] from [_load_last]; the notice is the only trace
    left, and no trainer is returned. *)
Theorem base_init_resumed_raises
    (train_loader : list Batch) (tune_loader : loaders Batch)
    (ckpt_dir : string) (w : World) :
  1 < global_step (history w) ->
  TrainerBase__init__ TrainerBase train_loader tune_loader ckpt_dir w
  = (Raise (NotImplementedError "Deriving classes must implement."),
     emit (EPrint "Loading last checkpoint...") w).
Proof.
  intros Hgs. unfold TrainerBase__init__, bind, read_global_step.
  apply Z.ltb_lt in Hgs. rewrite Hgs. reflexivity.
Qed.

(** ** Timing attributes *)

(** X3: [_end_step] before any [_start_step], and [_end_epoch] before any
    [_start_epoch], raise [AttributeError] for the missing start time.
    They have read the clock and assigned the end time by then, but the
    tracker has not been called, nothing is printed and no file is
    written. *)
Theorem end_before_start_raises (cls : methods) (self : trainer Batch)
    (loss acc : Q) (w : World) :
  (step_start w = None ->
   _end_step clock self loss acc w
   = (Raise (AttributeError "step_start"),
      set_step_end (clock (ticks w)) (tick w)))
  /\ (epoch_start w = None ->
      _end_epoch clock cls self w
      = (Raise (AttributeError "_epoch_start"),
         set_epoch_end (clock (ticks w)) (tick w))).
Proof.
  split; intros Hs.
  - cbv [_end_step bind time_time getattr].
    cbn [model history files saved_history epoch_start epoch_end step_start
         step_end ticks log set_step_end tick].
    rewrite Hs. reflexivity.
  - cbv [_end_epoch bind time_time getattr].
    cbn [model history files saved_history epoch_start epoch_end step_start
         step_end ticks log set_epoch_end tick].
    rewrite Hs. reflexivity.
Qed.

(** ** Checkpoint and resume *)

(** The world a checkpoint of the PyTorch trainer leaves. *)
Lemma checkpoint_eval (self : trainer Batch) (is_best : bool) (w : World) :
  _checkpoint PyTorchTrainer self is_best w
  = (Ok tt,
     let latest :=
       path_join (ckpt_dir self) (model_name (model w) +:+ "_latest") in
     let best :=
       path_join (ckpt_dir self) (model_name (model w) +:+ "_best") in
     let state := model_state_dict (model w) in
     if is_best then
       set_files (<[best := state]> (<[latest := state]> (files w)))
         (with_state (model w) (history w)
            [EModel CStateDict; ETorchSave latest state;
             EModel CStateDict; ETorchSave best state] w)
     else
       set_files (<[latest := state]> (files w))
         (with_state (model w) (history w)
            [EModel CStateDict; ETorchSave latest state] w)).
Proof.
  destruct w as [m h fs sh es ee ss se tk lg].
  destruct is_best;
    cbv [_checkpoint PyTorchTrainer PyTorchTrainer_checkpoint bind ckpt_path
         read_model_name ret call_state_dict torch_save set_files emit
         with_state model history files saved_history epoch_start epoch_end step_start
       step_end ticks log];
    rewrite <- !app_assoc; reflexivity.
Qed.

Lemma checkpoint_latest_lookup (dir name : string) (state : Params)
    (fs : gmap string Params) (is_best : bool) :
  (if is_best
   then <[path_join dir (name +:+ "_best") := state]>
          (<[path_join dir (name +:+ "_latest") := state]> fs)
   else <[path_join dir (name +:+ "_latest") := state]> fs)
  !! path_join dir (name +:+ "_latest") = Some state.
Proof.
  destruct is_best.
  - rewrite lookup_insert_ne
      by (intros E; apply (latest_is_not_best dir name); symmetry; exact E).
    apply lookup_insert_eq.
  - apply lookup_insert_eq.
Qed.


(** ** End of an epoch *)

(** [_end_epoch] up to the checkpoint, with the world it has built. *)
Lemma end_epoch_eval (cls : methods) (self : trainer Batch) (w : World)
    (t0 : Q) :
  epoch_start w = Some t0 ->
  _end_epoch clock cls self w
  = bind
      (_checkpoint cls self
         (snd (snd (end_epoch (clock (ticks w) - t0) (history w)))))
      (fun _ => history_save)
      (with_state (model w)
         (fst (end_epoch (clock (ticks w) - t0) (history w)))
         [EHistory (HEndEpoch (clock (ticks w) - t0));
          EPrint dividing_lines;
          EPrint
            (epoch_report_line
               (fst (fst (fst (fst (fst
                  (snd (end_epoch (clock (ticks w) - t0) (history w))))))))
               (snd (fst (fst (fst (fst
                  (snd (end_epoch (clock (ticks w) - t0) (history w))))))))
               (snd (fst (fst (fst
                  (snd (end_epoch (clock (ticks w) - t0) (history w))))))))]
         (set_epoch_end (clock (ticks w)) (tick w))).
Proof.
  intros Hs. destruct w as [m h fs sh es ee ss se tk lg].
  cbn [epoch_start] in Hs. subst es.
  cbv [_end_epoch bind time_time getattr history_end_epoch _report_epoch
       _print_dividing_lines print emit set_epoch_end tick set_history
       with_state model history files saved_history epoch_start epoch_end step_start
       step_end ticks log].
  destruct (end_epoch _ h)
    as [h1 [[[[[avg_time avg_loss] change_loss] avg_acc] change_acc] is_best]].
  cbn [fst snd]. rewrite <- !app_assoc. reflexivity.
Qed.


(** X6: the base class at the end of an epoch: the tracker has closed the
    epoch and the report is printed when [_checkpoint] raises
    [NotImplementedError]; [save] is never reached, so what is persisted of
    the tracker is what was persisted before, and no file is written. *)
Theorem base_end_epoch_not_saved (self : trainer Batch) (w : World) (t0 : Q) :
  epoch_start w = Some t0 ->
  exists w' : World,
    _end_epoch clock TrainerBase self w
    = (Raise (NotImplementedError "Deriving classes must implement."), w')
    /\ history w' = fst (end_epoch (clock (ticks w) - t0) (history w))
    /\ saved_history w' = saved_history w
    /\ files w' = files w
    /\ length (printed (log w')) = (length (printed (log w)) + 2)%nat.
Proof.
  intros Hs. rewrite (end_epoch_eval TrainerBase self w t0 Hs).
  eexists. split; [reflexivity|].
  cbn [with_state history saved_history files log set_epoch_end tick].
  repeat (split; [reflexivity|]).
  rewrite printed_app, length_app. reflexivity.
Qed.

(** ** One training step of the PyTorch trainer *)

(** What [_report_step] can do to the world: nothing, or one more line. *)
Lemma report_step_world (self : trainer Batch) (global_step : Z)
    (loss avg_loss acc avg_acc avg_time : Q) (w : World) :
  snd (_report_step self global_step loss avg_loss acc avg_acc avg_time w) = w
  \/ exists line : string,
       snd (_report_step self global_step loss avg_loss acc avg_acc avg_time w)
       = emit (EPrint line) w.
Proof.
  destruct (Z.eq_dec (report_every self) 0) as [Hre|Hre].
  - left. rewrite report_step_raise by exact Hre. reflexivity.
  - destruct (Z.eq_dec (global_step mod report_every self) 0) as [Hm|Hm].
    + right.
      destruct (report_step_print self global_step loss avg_loss acc avg_acc
                  avg_time w Hre Hm) as [line Hline].
      exists line. rewrite Hline. reflexivity.
    + left. rewrite report_step_skip by assumption. reflexivity.
Qed.

(** [_start_step], [step] and [_end_step] on one batch, up to the reporting
    check, with the world in which the check runs. *)
Lemma pytorch_step_eval (self : trainer Batch) (batch : Batch) (w : World) :
  train_steps clock PyTorchTrainer self [batch] w
  = (let fwd := model_forward batch (model_zero_grad (model w)) in
     let loss := fst (snd fwd) in
     let acc := snd (snd fwd) in
     let time_taken := (clock (S (ticks w)) - clock (ticks w))%Q in
     let es := end_step time_taken (tensor_scalar loss) acc (history w) in
     _report_step self (fst (fst (fst (snd es)))) (tensor_scalar loss)
       (snd (fst (snd es))) acc (snd (snd es)) (snd (fst (fst (snd es))))
       (with_state (model_optimize loss (fst fwd)) (fst es)
          [EModel CZeroGrad; EModel (CForward batch);
           EModel (COptimize loss);
           EHistory (HEndStep time_taken (tensor_scalar loss) acc)]
          (set_step_end (clock (S (ticks w)))
             (tick (set_step_start (clock (ticks w)) (tick w)))))).
Proof.
  destruct w as [m h fs sh es ee ss se tk lg].
  cbv [train_steps for_each bind ret _start_step time_time step PyTorchTrainer
       PyTorchTrainer_step call_model call_forward _end_step getattr
       history_end_step emit set_model set_step_start
       set_step_end tick set_history with_state
       model history files saved_history epoch_start epoch_end step_start
       step_end ticks log].
  destruct (model_forward batch (model_zero_grad m)) as [m1 [loss acc]].
  cbv beta iota zeta. cbn [fst snd].
  destruct (end_step _ (tensor_scalar loss) acc h)
    as [h1 [[[gs avg_time] avg_loss] avg_acc]].
  cbn [fst snd]. rewrite <- !app_assoc. cbn [app].
  destruct (_report_step self gs (tensor_scalar loss) avg_loss acc avg_acc
              avg_time _) as [[[]|e] w3]; reflexivity.
Qed.

(** X7: one pass of the training loop body on the PyTorch trainer, whatever
    its outcome.  The model got [zero_grad], [forward] on the batch and
    [optimize] on the loss [forward] returned, in this order; the tracker
    got [end_step] with the difference of two consecutive clock readings,
    the loss as a scalar and the accuracy; then at most one line was
    printed.  Exactly two clock readings were taken and no file was
    written.  This holds also when the reporting check raises. *)
Theorem training_step_trace (self : trainer Batch) (batch : Batch) (w : World) :
  let fwd := model_forward batch (model_zero_grad (model w)) in
  let loss := fst (snd fwd) in
  let acc := snd (snd fwd) in
  let time_taken := (clock (S (ticks w)) - clock (ticks w))%Q in
  let w' := snd (train_steps clock PyTorchTrainer self [batch] w) in
  exists rest : list (event Batch Tensor Params),
    log w'
    = log w ++ [EModel CZeroGrad; EModel (CForward batch);
                EModel (COptimize loss);
                EHistory (HEndStep time_taken (tensor_scalar loss) acc)]
            ++ rest
    /\ (rest = [] \/ exists line : string, rest = [EPrint line])
    /\ model w' = model_optimize loss (fst fwd)
    /\ history w'
       = fst (end_step time_taken (tensor_scalar loss) acc (history w))
    /\ files w' = files w
    /\ ticks w' = S (S (ticks w)).
Proof.
  cbv zeta. rewrite pytorch_step_eval. cbv zeta.
  match goal with
  | |- context [_report_step ?s ?g ?l ?al ?a ?aa ?at_ ?W] =>
      destruct (report_step_world s g l al a aa at_ W) as [E|[line E]];
      rewrite E
  end.
  - exists []. rewrite app_nil_r. repeat split. left. reflexivity.
  - exists [EPrint line].
    cbn [emit with_state model history files ticks log set_step_end
         set_step_start tick].
    rewrite <- app_assoc.
    split; [reflexivity|]. split; [right; exists line; reflexivity|].
    repeat split.
Qed.

(** The loop over the batches when [report_every] is 1. *)
Lemma train_steps_all_report (self : trainer Batch) :
  report_every self = 1 ->
  forall (batches : list Batch) (w : World),
    exists (w' : World) (evs : list (event Batch Tensor Params)),
      train_steps clock PyTorchTrainer self batches w = (Ok tt, w')
      /\ log w' = log w ++ evs
      /\ length (printed evs) = length batches.
Proof.
  intros Hre. induction batches as [|batch rest IH]; intros w.
  - exists w, []. rewrite app_nil_r. repeat split.
  - rewrite train_steps_cons, pytorch_step_eval. cbv zeta.
    match goal with
    | |- context [_report_step ?s ?g ?l ?al ?a ?aa ?at_ ?W] =>
        destruct (report_step_print s g l al a aa at_ W) as [line Hline];
        [rewrite Hre; discriminate|rewrite Hre; apply Z.mod_1_r|];
        rewrite Hline
    end.
    match goal with
    | |- context [train_steps clock PyTorchTrainer self rest ?W] =>
        destruct (IH W) as (w' & evs & E & Hl & Hp)
    end.
    rewrite E. eexists. eexists. split; [reflexivity|].
    split.
    + rewrite Hl.
      cbn [emit with_state log set_step_end set_step_start tick].
      rewrite <- !app_assoc. reflexivity.
    + rewrite !printed_app, !length_app, Hp. reflexivity.
Qed.

(** X8: with 10 to 19 batches per epoch [report_every] is 1, so every step
    prints a progress line whatever its number: an epoch of [n] steps
    prints [n] lines, not ten. *)
Theorem short_epoch_reports_every_step (self : trainer Batch) :
  10 <= batches_per_epoch self < 20 ->
  report_every self = 1
  /\ (forall (global_step : Z) (loss avg_loss acc avg_acc avg_time : Q)
             (w : World),
        exists line : string,
          _report_step self global_step loss avg_loss acc avg_acc avg_time w
          = (Ok tt, emit (EPrint line) w))
  /\ (forall (batches : list Batch) (w : World),
        exists (w' : World) (evs : list (event Batch Tensor Params)),
          train_steps clock PyTorchTrainer self batches w = (Ok tt, w')
          /\ log w' = log w ++ evs
          /\ length (printed evs) = length batches).
Proof.
  intros Hbpe.
  assert (Hre : report_every self = 1).
  { rewrite report_every_div. symmetry.
    apply Z.div_unique with (batches_per_epoch self - 10); lia. }
  split; [exact Hre|]. split.
  - intros. apply report_step_print; rewrite Hre;
      [discriminate|apply Z.mod_1_r].
  - apply train_steps_all_report. exact Hre.
Qed.

(** ** Progress at an epoch boundary *)

Lemma tenths_zero (r b : Z) :
  0 <= r < b ->
  (Qceiling (inject_Z r / inject_Z b * 100 / 10) = 0 <-> r = 0).
Proof.
  intros Hr. split.
  - intros Hc.
    destruct (Z.eq_dec r 0) as [E|E]; [exact E|exfalso].
    assert (Hpos : (0 < inject_Z r / inject_Z b * 100 / 10)%Q).
    { unfold Qdiv.
      repeat apply Qmult_lt_0_compat; try reflexivity.
      - unfold Qlt. simpl. lia.
      - apply Qinv_lt_0_compat. unfold Qlt. simpl. lia. }
    pose proof (Qle_ceiling (inject_Z r / inject_Z b * 100 / 10)) as Hle.
    rewrite Hc in Hle.
    exact (Qlt_not_le _ _ Hpos Hle).
  - intros E. subst r.
    assert (Hz : (inject_Z 0 / inject_Z b * 100 / 10 == 0)%Q).
    { unfold Qdiv. change (inject_Z 0) with 0%Q.
      rewrite !Qmult_0_l. reflexivity. }
    rewrite (Qceiling_comp _ _ Hz). reflexivity.
Qed.

(** X9: with at least one batch per epoch, [progress_percent] is 0 exactly
    when the global step is a multiple of [batches_per_epoch], and exactly
    then [steps_remaining] is a whole epoch; at every other step the
    percentage is at least 10.  A line printed at a step whose number is a
    multiple of [batches_per_epoch] therefore shows 0% and a full epoch
    remaining. *)
Theorem progress_zero_at_epoch_boundary (self : trainer Batch) (w : World) :
  1 <= batches_per_epoch self ->
  exists percent remaining : Z,
    progress_percent self w = (Ok percent, w)
    /\ steps_remaining self w = (Ok remaining, w)
    /\ (percent = 0
        <-> global_step (history w) mod batches_per_epoch self = 0)
    /\ (remaining = batches_per_epoch self
        <-> global_step (history w) mod batches_per_epoch self = 0)
    /\ (global_step (history w) mod batches_per_epoch self <> 0 ->
        10 <= percent).
Proof.
  intros Hbpe.
  set (b := batches_per_epoch self) in *.
  set (r := global_step (history w) mod b).
  assert (Hr : 0 <= r < b) by (apply Z.mod_pos_bound; lia).
  exists (ceil (inject_Z r / inject_Z b * 100 / 10) * 10), (b - r).
  rewrite progress_percent_eval by (fold b; lia).
  rewrite steps_remaining_eval by (fold b; lia).
  fold b r. unfold ceil.
  pose proof (tenths_zero r b Hr) as Hz.
  pose proof (tenths_bounds r b Hr) as Hb.
  split; [reflexivity|]. split; [reflexivity|].
  split; [|split]; [split; intros E|split; intros E|intros E]; lia.
Qed.

(** ** A tuning source without batches *)

Lemma for_each_tune_abort (pre post : list (list Batch)) (w0 : World) :
  Forall (fun src => src <> []) pre ->
  forall (m : M) (h : H) (evs : list (event Batch Tensor Params)),
    for_each (pre ++ [] :: post) _tune (with_state m h evs w0)
    = (Raise ZeroDivisionError,
       let '(m', h', evs') :=
         fold_left (fun s src => tune_source src s) pre (m, h, evs) in
       with_state m' h' evs' w0).
Proof.
  induction 1 as [|src pre Hsrc _ IH]; intros m h evs.
  - cbn [app for_each fold_left]. unfold bind. rewrite tune_empty.
    reflexivity.
  - cbn [app for_each fold_left]. unfold bind.
    rewrite tune_eval by exact Hsrc.
    destruct (tune_source src (m, h, evs)) as [[m1 h1] evs1].
    apply IH.
Qed.

(** X10: when a tuning source has no batch, the tuning pass raises
    [ZeroDivisionError] at the first such source.  The sources before it
    were tuned as usual (forward passes, [end_tuning], one line each); the
    empty source and the ones after it get nothing; and since the calls on
    the model are [eval] and the forward passes only, the model is left in
    evaluation mode. *)
Theorem tuning_aborts_at_empty_source
    (self : trainer Batch) (w : World) (pre post : list (list Batch)) :
  sources_of (tune_loader self) = pre ++ [] :: post ->
  Forall (fun src => src <> []) pre ->
  _tuning self w
  = (Raise ZeroDivisionError,
     let '(m', h', evs) :=
       fold_left (fun s src => tune_source src s) pre
                 (model_eval (model w), history w, [EModel CEval]) in
     with_state m' h' evs w)
  /\ model_calls
       (snd (fold_left (fun s src => tune_source src s) pre
                       (model_eval (model w), history w, [EModel CEval])))
     = CEval :: map (@CForward Batch Tensor Params) (concat pre).
Proof.
  intros Hsrcs Hpre. split.
  - unfold _tuning, bind at 1, call_model.
    change (emit (EModel CEval) (set_model (model_eval (model w)) w))
      with (with_state (model_eval (model w)) (history w) [EModel CEval] w).
    assert (Hrun :
      match tune_loader self with
      | OneLoader l => _tune l
      | LoaderList ls => for_each ls _tune
      end (with_state (model_eval (model w)) (history w) [EModel CEval] w)
      = (Raise ZeroDivisionError,
         let '(m', h', evs') :=
           fold_left (fun s src => tune_source src s) pre
             (model_eval (model w), history w, [EModel CEval]) in
         with_state m' h' evs' w)).
    { destruct (tune_loader self) as [l|ls]; cbn [sources_of] in Hsrcs.
      - destruct pre as [|src pre].
        + cbn [app] in Hsrcs. injection Hsrcs as Hl _. subst l.
          rewrite tune_empty. reflexivity.
        + cbn [app] in Hsrcs. injection Hsrcs as _ Hnil.
          destruct pre; discriminate Hnil.
      - subst ls. apply for_each_tune_abort. exact Hpre. }
    unfold bind. rewrite Hrun. reflexivity.
  - rewrite tune_sources_calls. reflexivity.
Qed.

(** ** Whole epochs of the PyTorch trainer *)

Lemma start_epoch_sets_start (self : trainer Batch) (w : World) :
  exists w1 : World,
    _start_epoch clock self w = (Ok tt, w1)
    /\ epoch_start w1 = Some (clock (ticks w)).
Proof.
  cbv [_start_epoch bind read_global_epoch _print_epoch_start
       _print_dividing_lines print call_model time_time].
  cbn [model history files saved_history epoch_start epoch_end step_start
       step_end ticks log emit set_model tick].
  eexists. split; reflexivity.
Qed.

Lemma train_steps_complete (self : trainer Batch) :
  10 <= batches_per_epoch self ->
  forall (batches : list Batch) (w : World),
    exists w' : World,
      train_steps clock PyTorchTrainer self batches w = (Ok tt, w')
      /\ epoch_start w' = epoch_start w.
Proof.
  intros Hbpe.
  pose proof (report_every_pos self Hbpe) as Hre.
  induction batches as [|batch rest IH]; intros w.
  - exists w. split; reflexivity.
  - rewrite train_steps_cons, pytorch_step_eval. cbv zeta.
    match goal with
    | |- context [_report_step ?s ?g ?l ?al ?a ?aa ?at_ ?W] =>
        destruct (Z.eq_dec (g mod report_every self) 0) as [Hm|Hm];
        [destruct (report_step_print s g l al a aa at_ W) as [line Hline];
         [lia|exact Hm|]; rewrite Hline
        |rewrite (report_step_skip s g l al a aa at_ W) by (lia || exact Hm)]
    end.
    + match goal with
      | |- context [train_steps clock PyTorchTrainer self rest ?W] =>
          destruct (IH W) as (w' & E & Hs)
      end.
      exists w'. split; [exact E|]. rewrite Hs. reflexivity.
    + match goal with
      | |- context [train_steps clock PyTorchTrainer self rest ?W] =>
          destruct (IH W) as (w' & E & Hs)
      end.
      exists w'. split; [exact E|]. rewrite Hs. reflexivity.
Qed.

Lemma tuning_completes (self : trainer Batch) (w : World) :
  Forall (fun src => src <> []) (sources_of (tune_loader self)) ->
  exists w' : World,
    _tuning self w = (Ok tt, w') /\ epoch_start w' = epoch_start w.
Proof.
  intros Hne. unfold _tuning, bind at 1, call_model.
  change (emit (EModel CEval) (set_model (model_eval (model w)) w))
    with (with_state (model_eval (model w)) (history w) [EModel CEval] w).
  assert (Hrun :
    match tune_loader self with
    | OneLoader l => _tune l
    | LoaderList ls => for_each ls _tune
    end (with_state (model_eval (model w)) (history w) [EModel CEval] w)
    = (Ok tt,
       let '(m', h', evs') :=
         fold_left (fun s src => tune_source src s)
           (sources_of (tune_loader self))
           (model_eval (model w), history w, [EModel CEval]) in
       with_state m' h' evs' w)).
  { destruct (tune_loader self) as [l|ls]; cbn [sources_of] in *.
    - rewrite tune_eval by (inversion Hne; assumption). reflexivity.
    - apply for_each_tune. exact Hne. }
  unfold bind. rewrite Hrun.
  destruct (fold_left _ _ _) as [[m1 h1] evs1].
  eexists. split; reflexivity.
Qed.

Lemma pytorch_end_epoch_invariant (self : trainer Batch) (w : World) (t0 : Q) :
  epoch_start w = Some t0 ->
  exists w' : World,
    _end_epoch clock PyTorchTrainer self w = (Ok tt, w')
    /\ files w'
       !! path_join (ckpt_dir self) (model_name (model w') +:+ "_latest")
       = Some (model_state_dict (model w'))
    /\ saved_history w' = Some (history w').
Proof.
  intros Hs. rewrite (end_epoch_eval PyTorchTrainer self w t0 Hs).
  unfold bind. rewrite checkpoint_eval. cbv zeta.
  unfold history_save.
  eexists. split; [reflexivity|].
  destruct (snd (snd (end_epoch (clock (ticks w) - t0) (history w))));
    cbn [emit set_saved_history set_files with_state model history files
         saved_history].
  - split; [|reflexivity].
    apply (checkpoint_latest_lookup _ _ _ _ true).
  - split; [|reflexivity].
    apply (checkpoint_latest_lookup _ _ _ _ false).
Qed.

Lemma train_epoch_completes (self : trainer Batch) (w : World) :
  train_loader self = [] \/ 10 <= batches_per_epoch self ->
  Forall (fun src => src <> []) (sources_of (tune_loader self)) ->
  exists w' : World,
    train_epoch clock PyTorchTrainer self w = (Ok tt, w')
    /\ files w'
       !! path_join (ckpt_dir self) (model_name (model w') +:+ "_latest")
       = Some (model_state_dict (model w'))
    /\ saved_history w' = Some (history w').
Proof.
  intros Hsteps Hne. unfold train_epoch, bind at 1.
  destruct (start_epoch_sets_start self w) as (w1 & E1 & Hs1). rewrite E1.
  unfold bind at 1.
  assert (Hloop : exists w2 : World,
            train_steps clock PyTorchTrainer self (train_loader self) w1
            = (Ok tt, w2)
            /\ epoch_start w2 = epoch_start w1).
  { destruct Hsteps as [Hnil|Hbpe].
    - rewrite Hnil. exists w1. split; reflexivity.
    - apply train_steps_complete. exact Hbpe. }
  destruct Hloop as (w2 & E2 & Hs2). rewrite E2.
  unfold bind at 1.
  destruct (tuning_completes self w2 Hne) as (w3 & E3 & Hs3). rewrite E3.
  apply (pytorch_end_epoch_invariant self w3 (clock (ticks w))).
  rewrite Hs3, Hs2, Hs1. reflexivity.
Qed.


(** ** Fewer than ten batches: what the run leaves behind *)

(** One more iteration of the loop of [train]: the default stopping
    condition lets it run. *)
Lemma train_succ_pytorch (fuel : nat) (self : trainer Batch) (w : World) :
  train clock (S fuel) PyTorchTrainer self w
  = match train_epoch clock PyTorchTrainer self w with
    | (Ok _, w1) => train clock fuel PyTorchTrainer self w1
    | (Raise e, w1) => (Raise e, w1)
    end.
Proof. reflexivity. Qed.

Lemma start_epoch_eval (self : trainer Batch) (w : World) :
  _start_epoch clock self w
  = (Ok tt,
     set_epoch_start (clock (ticks w))
       (tick
          (with_state (model_train (model w)) (history w)
             [EPrint dividing_lines;
              EPrint (epoch_start_line (global_epoch (history w)));
              EPrint dividing_lines;
              EModel CTrain] w))).
Proof.
  destruct w as [m h fs sh es ee ss se tk lg].
  cbv [_start_epoch bind read_global_epoch _print_epoch_start
       _print_dividing_lines print call_model time_time emit set_model
       set_epoch_start tick with_state
       model history files saved_history epoch_start epoch_end step_start
       step_end ticks log].
  rewrite <- !app_assoc. reflexivity.
Qed.

(** X12: a PyTorch trainer with one to nine training batches never gets to
    a checkpoint.  [train] raises [ZeroDivisionError] in its first step:
    by then the model has been optimized once and the tracker has counted
    one step, but no line of progress is printed, no file is written and
    the tracker is not saved. *)
Theorem small_loader_never_checkpoints
    (self : trainer Batch) (batch : Batch) (rest : list Batch)
    (fuel : nat) (w : World) :
  train_loader self = batch :: rest ->
  0 <= batches_per_epoch self < 10 ->
  let w' := snd (train clock (S fuel) PyTorchTrainer self w) in
  fst (train clock (S fuel) PyTorchTrainer self w) = Raise ZeroDivisionError
  /\ files w' = files w
  /\ saved_history w' = saved_history w
  /\ model_calls (log w')
     = model_calls (log w)
       ++ [CTrain; CZeroGrad; CForward batch;
           COptimize
             (fst (snd (model_forward batch
                          (model_zero_grad (model_train (model w))))))]
  /\ length (printed (log w')) = (length (printed (log w)) + 3)%nat.
Proof.
  intros Hloader Hbpe.
  assert (Hre : report_every self = 0) by (apply report_every_zero; lia).
  cbv zeta. rewrite train_succ_pytorch. unfold train_epoch, bind.
  rewrite start_epoch_eval. cbv beta iota.
  rewrite Hloader, train_steps_cons, pytorch_step_eval. cbv zeta.
  rewrite report_step_raise by exact Hre.
  cbv beta iota. cbn [fst snd].
  cbn [with_state set_step_end set_step_start tick set_epoch_start
       model history files saved_history ticks log].
  split; [reflexivity|]. split; [reflexivity|]. split; [reflexivity|].
  split.
  - rewrite <- !app_assoc. cbn [app]. rewrite model_calls_app. reflexivity.
  - rewrite <- !app_assoc. cbn [app]. rewrite printed_app, length_app.
    reflexivity.
Qed.

(** ** How many progress lines an epoch prints *)

Lemma count_reports_closed (every : Z) (n : nat) :
  1 <= every ->
  forall first : Z,
    Z.of_nat (count_reports every first n)
    = (first + Z.of_nat n - 1) / every - (first - 1) / every.
Proof.
  intros He. induction n as [|n IH]; intros first.
  - cbn [count_reports]. replace (first + Z.of_nat 0 - 1) with (first - 1) by lia.
    lia.
  - cbn [count_reports]. rewrite Nat2Z.inj_add, IH.
    replace (first + 1 + Z.of_nat n - 1) with (first + Z.of_nat (S n) - 1)
      by lia.
    replace (first + 1 - 1) with first by lia.
    assert (Hstep : Z.of_nat (if first mod every =? 0 then 1 else 0)
                    = first / every - (first - 1) / every).
    { destruct (Z.eqb_spec (first mod every) 0) as [Hm|Hm].
      - change (Z.of_nat 1) with 1.
        apply Z.mod_divide in Hm; [|lia]. destruct Hm as [k Hk]. subst first.
        rewrite Z.div_mul by lia.
        replace (k * every - 1) with ((every - 1) + (k - 1) * every) by lia.
        rewrite Z.div_add by lia. rewrite Z.div_small by lia. lia.
      - change (Z.of_nat 0) with 0.
        pose proof (Z.mod_pos_bound first every ltac:(lia)) as Hb.
        pose proof (Z.div_mod first every ltac:(lia)) as Hdm.
        assert (Hq : (first - 1) / every = first / every).
        { symmetry. apply Z.div_unique with (first mod every - 1); lia. }
        lia. }
    lia.
Qed.


End FurtherProperties.

(** * Further runs on the concrete instance *)

(** X2 on a tracker at step 5. *)
Lemma base_init_resumed_raises_witness :
  TrainerBase__init__ TrainerBase (seq 0 3) (OneLoader [1%nat]) "ckpt"
    (Toy.world_at 5 ∅)
  = (Raise (NotImplementedError "Deriving classes must implement."),
     emit (EPrint "Loading last checkpoint...") (Toy.world_at 5 ∅)).
Proof.
  assert (Hgs : 1 < global_step (history (Toy.world_at 5 ∅)))
    by reflexivity.
  exact (base_init_resumed_raises (seq 0 3) (OneLoader [1%nat]) "ckpt"
           (Toy.world_at 5 ∅) Hgs).
Defined.

(** X3 on a world in which no step has been started. *)
Lemma end_before_start_raises_witness :
  fst (_end_step Toy.clock Toy.two_sources (1 # 2) (1 # 2) (Toy.world_at 0 ∅))
  = Raise (AttributeError "step_start").
Proof.
  destruct (end_before_start_raises Toy.clock PyTorchTrainer Toy.two_sources
              (1 # 2) (1 # 2) (Toy.world_at 0 ∅)) as [Hstep _].
  rewrite (Hstep eq_refl). reflexivity.
Defined.



(** X6 at the end of the second epoch of the toy tracker. *)
Lemma base_end_epoch_not_saved_witness :
  exists w' : world nat Q Z Toy.net Toy.tracker,
    _end_epoch Toy.clock TrainerBase Toy.two_sources Toy.world_epoch_end
    = (Raise (NotImplementedError "Deriving classes must implement."), w')
    /\ saved_history w' = None
    /\ Toy.tr_global_epoch (history w') = 3.
Proof.
  destruct (base_end_epoch_not_saved Toy.clock Toy.two_sources
              Toy.world_epoch_end 0%Q eq_refl)
    as (w' & E & Hh & Hs & _).
  exists w'. split; [exact E|]. split; [exact Hs|].
  rewrite Hh. reflexivity.
Defined.

(** X8 on an epoch of 15 batches. *)
Lemma short_epoch_reports_every_step_witness :
  exists (w' : world nat Q Z Toy.net Toy.tracker)
         (evs : list (event nat Q Z)),
    train_steps Toy.clock PyTorchTrainer (Toy.trainer_of 15 (OneLoader [1%nat]))
      (seq 0 15) (Toy.world_at 0 ∅) = (Ok tt, w')
    /\ log w' = log (Toy.world_at 0 ∅) ++ evs
    /\ length (printed evs) = 15%nat.
Proof.
  assert (Hbpe : 10 <= batches_per_epoch (Toy.trainer_of 15 (OneLoader [1%nat]))
                 < 20) by (simpl; lia).
  destruct (short_epoch_reports_every_step Toy.clock _ Hbpe) as (_ & _ & Hloop).
  exact (Hloop (seq 0 15) (Toy.world_at 0 ∅)).
Defined.

(** X9 at global step 40 with 20 batches per epoch. *)
Lemma progress_zero_at_epoch_boundary_witness :
  progress_percent Toy.two_sources (Toy.world_at 40 ∅)
  = (Ok 0, Toy.world_at 40 ∅)
  /\ steps_remaining Toy.two_sources (Toy.world_at 40 ∅)
     = (Ok 20, Toy.world_at 40 ∅).
Proof.
  assert (Hbpe : 1 <= batches_per_epoch Toy.two_sources) by (simpl; lia).
  destruct (progress_zero_at_epoch_boundary Toy.two_sources
              (Toy.world_at 40 ∅) Hbpe)
    as (percent & remaining & Ep & Er & Hp & Hr & _).
  rewrite Ep, Er.
  rewrite (proj2 Hp eq_refl), (proj2 Hr eq_refl). split; reflexivity.
Defined.

(** X10 on three tuning sources of which the second is empty. *)
Lemma tuning_aborts_at_empty_source_witness :
  fst (_tuning (Toy.trainer_of 20 (LoaderList [[1]; []; [2]]%nat))
         (Toy.world_at 0 ∅))
  = Raise ZeroDivisionError
  /\ model_calls
       (log (snd (_tuning (Toy.trainer_of 20 (LoaderList [[1]; []; [2]]%nat))
                    (Toy.world_at 0 ∅))))
     = [CEval; CForward 1%nat].
Proof.
  assert (Hpre : Forall (fun src : list nat => src <> []) [[1%nat]])
    by (repeat constructor; discriminate).
  destruct (tuning_aborts_at_empty_source
              (Toy.trainer_of 20 (LoaderList [[1]; []; [2]]%nat))
              (Toy.world_at 0 ∅) [[1%nat]] [[2%nat]] eq_refl Hpre)
    as [Hrun _].
  rewrite Hrun. split; vm_compute; reflexivity.
Defined.


(** X12 on an epoch of 5 batches. *)
Lemma small_loader_never_checkpoints_witness :
  fst (train Toy.clock 3 PyTorchTrainer (Toy.trainer_of 5 (OneLoader [1%nat]))
         (Toy.world_at 0 ∅))
  = Raise ZeroDivisionError
  /\ files (snd (train Toy.clock 3 PyTorchTrainer
                   (Toy.trainer_of 5 (OneLoader [1%nat])) (Toy.world_at 0 ∅)))
     = ∅.
Proof.
  assert (Hbpe : 0 <= batches_per_epoch (Toy.trainer_of 5 (OneLoader [1%nat]))
                 < 10) by (simpl; lia).
  destruct (small_loader_never_checkpoints Toy.clock
              (Toy.trainer_of 5 (OneLoader [1%nat])) 0%nat (seq 1 4) 2%nat
              (Toy.world_at 0 ∅) eq_refl Hbpe) as (Hraise & Hfiles & _).
  split; [exact Hraise|exact Hfiles].
Defined.

